(** * techindicators: rolling-window indicators and signal fusion

    A shallow embedding of the Go package [techindicators] and the
    properties its specification states about it.

    Numbers.  Go's [float64] is embedded as the exact rationals [Q]; the
    comparisons of the source are the boolean comparisons on [Q], and a
    result that the source leaves to floating-point rounding is compared
    with [==].  Go's [int] is embedded as [Z], without wrap-around: the
    integers of the source are lengths, indices and periods.  [math.Sqrt],
    the layout of [time.Time.Format], [strconv.ParseFloat] and [time.Parse]
    belong to Go's standard library: they are section variables, and a
    theorem that needs a property of one of them states it as a premise.

    Results.  A Go function returning [(T, error)] is embedded as a pair
    [T * option error]: the zero value of [T] travels with the error, as it
    does in the source, and a caller that drops the error with [_] keeps
    that zero value. *)

From Stdlib Require Import ZArith QArith Qabs List String DecimalString Bool Lia Lqa.
Import ListNotations.

Local Open Scope string_scope.
Local Open Scope list_scope.
Local Open Scope Z_scope.
Local Open Scope Q_scope.

(** ** Numbers *)

Definition float64 := Q.

(** [float64(n)] for an [int] n. *)
Definition float64_of_int (n : Z) : float64 := inject_Z n.

(** The comparisons [<=], [<], [>=], [>], [==], [!=] of the source. *)
Definition fle (x y : float64) : bool := Qle_bool x y.
Definition flt (x y : float64) : bool := negb (Qle_bool y x).
Definition fge (x y : float64) : bool := Qle_bool y x.
Definition fgt (x y : float64) : bool := negb (Qle_bool x y).
Definition feq (x y : float64) : bool := Qeq_bool x y.
Definition fne (x y : float64) : bool := negb (Qeq_bool x y).

(** ** Errors and results *)

(** One constructor per error message of the source; the integers are the
    ones the message formats with [%d]. *)
Inductive error : Type :=
| ErrDatasetEmpty                      (* "dataset is empty" *)
| ErrPeriodNotPositive                 (* "period must be greater than 0" *)
| ErrPeriodTooLarge (period len : Z)   (* "period (%d) cannot be greater than dataset length (%d)" *)
| ErrPeriodNotLess (period len : Z)    (* "period (%d) must be less than dataset length (%d)" *)
| ErrInsufficientChanges (period : Z)  (* "insufficient data: need at least %d price changes" *)
| ErrNoSMAResults                      (* "no SMA results calculated" *)
| ErrNoRSIResults                      (* "no RSI results calculated" *)
| ErrFastNotLess                       (* "fast period must be less than slow period" *)
| ErrCrossoverData                     (* "insufficient data for crossover analysis" *)
| ErrMultiplierNotPositive             (* "multiplier must be greater than 0" *)
| ErrNoBands                           (* "no Bollinger Bands calculated" *)
| ErrSqueezeData                       (* "insufficient data for squeeze analysis" *)
| ErrPeriodsNotPositive                (* "periods must be greater than 0" *)
| ErrInsufficientCandles (maxPeriod : Z) (* "insufficient data: need more than %d candles" *)
| ErrNoVolumeResults                   (* "no volume results calculated" *)
| ErrCandleFields                      (* "invalid candle data: insufficient fields" *)
| ErrInvalidOpen | ErrInvalidClose | ErrInvalidHigh | ErrInvalidLow
                                       (* "invalid open price: %w", ... *)
| ErrAtIndex (j : Z) (cause : error)   (* "error at index %d: %w" *)
| ErrEmptyDataset                      (* "empty dataset" *)
| ErrInvalidCandle (i len : Z)         (* "invalid candle at index %d: expected 6 fields, got %d" *)
| ErrInvalidTimestamp (i : Z) (s : string)
| ErrInvalidField (field : string) (i : Z). (* "invalid open price at index %d: %w", ... *)

Definition result (T : Type) : Type := (T * option error)%type.

Definition ok {T} (x : T) : result T := (x, None).
Definition fail {T} (zero : T) (e : error) : result T := (zero, Some e).

(** [x, err := call; if err != nil { return zero, err }; rest x] *)
Definition try {A B} (call : result A) (zero : B) (rest : A -> result B) : result B :=
  match snd call with
  | Some e => (zero, Some e)
  | None => rest (fst call)
  end.

Notation "'let?' x ':=' c 'else' z 'in' k" := (try c z (fun x => k))
  (at level 10, x name, c at level 100, z at level 100, k at level 200).

(** ** Slices and counted loops *)

Definition len {A} (s : list A) : Z := Z.of_nat (List.length s).

(** [s[i]], with the zero value standing in where Go would panic. *)
Definition index {A} (zero : A) (s : list A) (i : Z) : A :=
  if (i <? 0)%Z then zero else nth (Z.to_nat i) s zero.

(** [s[i:]] and [s[:j]]. *)
Definition slice_from {A} (s : list A) (i : Z) : list A := skipn (Z.to_nat i) s.
Definition slice_to {A} (s : list A) (j : Z) : list A := firstn (Z.to_nat j) s.

(** [n] rounds of [body], the counter stepping up from [i]. *)
Fixpoint loop {S} (n : nat) (i : Z) (body : Z -> S -> S) (s : S) : S :=
  match n with
  | O => s
  | Datatypes.S n' => loop n' (i + 1)%Z body (body i s)
  end.

(** [for i := lo; i < hi; i++ { s = body i s }] *)
Definition for_range {S} (lo hi : Z) (body : Z -> S -> S) (s : S) : S :=
  loop (Z.to_nat (hi - lo)) lo body s.

(** The same loop with a body that may [return] an error out of the
    enclosing function. *)
Fixpoint loop_err {S} (n : nat) (i : Z) (body : Z -> S -> S + error) (s : S) : S + error :=
  match n with
  | O => inl s
  | Datatypes.S n' =>
      match body i s with
      | inl s' => loop_err n' (i + 1)%Z body s'
      | inr e => inr e
      end
  end.

Definition for_range_err {S} (lo hi : Z) (body : Z -> S -> S + error) (s : S) : S + error :=
  loop_err (Z.to_nat (hi - lo)) lo body s.

(** ** types.go *)

(** [time.Time], as seconds since the Unix epoch. *)
Definition Time := Z.

Record OHLCV := mkOHLCV {
  Timestamp : Time;
  Open : float64;
  High : float64;
  Low : float64;
  Close : float64;
  Volume : float64
}.

Definition OHLCV_zero : OHLCV := mkOHLCV 0%Z 0 0 0 0 0.

(** [type PriceType int], with the constants numbered by [iota]. *)
Definition PriceType := Z.
Definition ClosePrice : PriceType := 0%Z.
Definition OpenPrice : PriceType := 1%Z.
Definition HighPrice : PriceType := 2%Z.
Definition LowPrice : PriceType := 3%Z.
Definition TypicalPrice : PriceType := 4%Z.

Definition ExtractPrice (o : OHLCV) (priceType : PriceType) : float64 :=
  match priceType with
  | 1%Z => Open o
  | 0%Z => Close o
  | 2%Z => High o
  | 3%Z => Low o
  | 4%Z => (High o + Low o + Close o) / 3
  | 5%Z => (High o + Low o + 2 * Close o) / 4
  | _ => Close o
  end.

(** ** Result records shared by the engines

    A field name that several structs of the source share ([Timestamp],
    [Value], [Signal], ...) carries the initials of its struct. *)

Record SMAResult := mkSMAResult {
  SMA_Timestamp : string;
  SMA_Value : float64
}.

Record BollingerBands := mkBollingerBands {
  BB_Timestamp : string;
  UpperBand : float64;
  MiddleBand : float64;
  LowerBand : float64;
  BandWidth : float64
}.

Definition SMAResult_zero : SMAResult := mkSMAResult "" 0.

Definition BollingerBands_zero : BollingerBands := mkBollingerBands "" 0 0 0 0.

(** [type BollingerPosition string] *)
Definition BollingerPosition := string.
Definition AboveUpperBand : BollingerPosition := "above_upper".
Definition BetweenBands : BollingerPosition := "between_bands".
Definition BelowLowerBand : BollingerPosition := "below_lower".
Definition TouchingUpper : BollingerPosition := "touching_upper".
Definition TouchingLower : BollingerPosition := "touching_lower".

Record BollingerStrategy := mkBollingerStrategy {
  Position : BollingerPosition;
  Breakout : string;
  Squeeze : bool;
  BS_BandWidth : float64;
  BS_Signal : string
}.

Definition BollingerStrategy_zero : BollingerStrategy :=
  mkBollingerStrategy "" "" false 0 "".

Record RSIResult := mkRSIResult {
  RSI_Timestamp : string;
  RSI_Value : float64;
  RSI_Signal : string
}.

Definition RSIResult_zero : RSIResult := mkRSIResult "" 0 "".

(** [type RSICondition string] *)
Definition RSICondition := string.
Definition RSIOverbought : RSICondition := "overbought".
Definition RSIOversold : RSICondition := "oversold".
Definition RSINeutral : RSICondition := "neutral".
Definition RSIExtremeHigh : RSICondition := "extreme_high".
Definition RSIExtremeLow : RSICondition := "extreme_low".

Record RSIDivergence := mkRSIDivergence {
  RD_Type : string;
  RD_Strength : string;
  RD_Confidence : float64
}.

Definition RSIDivergence_zero : RSIDivergence := mkRSIDivergence "" "" 0.

Record RSIStrategy := mkRSIStrategy {
  RS_Current : RSIResult;
  Condition : RSICondition;
  Divergence : RSIDivergence;
  RS_Signal : string;
  Momentum : string
}.

Definition RSIStrategy_zero : RSIStrategy :=
  mkRSIStrategy RSIResult_zero "" RSIDivergence_zero "" "".

Record CombinedTechnicalAnalysis := mkCombinedTechnicalAnalysis {
  SMASignal : string;
  BollingerSignal : string;
  RSISignal : string;
  CT_FinalSignal : string;
  CT_Confidence : string;
  CT_RiskLevel : string
}.

Definition CombinedTechnicalAnalysis_zero : CombinedTechnicalAnalysis :=
  mkCombinedTechnicalAnalysis "" "" "" "" "" "".

Record VolumeResult := mkVolumeResult {
  VR_Timestamp : string;
  VR_Volume : float64;
  VMA : float64;
  OBV : float64;
  VPT : float64;
  VROC : float64;
  ADL : float64
}.

Definition VolumeResult_zero : VolumeResult := mkVolumeResult "" 0 0 0 0 0 0.

Record VolumeSignal := mkVolumeSignal {
  VS_Type : string;
  VS_Strength : string;
  VS_Trend : string;
  VS_Confidence : float64
}.

Definition VolumeSignal_zero : VolumeSignal := mkVolumeSignal "" "" "" 0.

Record VolumeStrategy := mkVolumeStrategy {
  VSt_Current : VolumeResult;
  BreakoutSignal : VolumeSignal;
  AccumulationSignal : VolumeSignal;
  VolumeRatio : float64;
  OBVTrend : string;
  VSt_Signal : string
}.

Definition VolumeStrategy_zero : VolumeStrategy :=
  mkVolumeStrategy VolumeResult_zero VolumeSignal_zero VolumeSignal_zero 0 "" "".

Record UltimateMemecoinAnalysis := mkUltimateMemecoinAnalysis {
  Technical : CombinedTechnicalAnalysis;
  UM_Volume : VolumeStrategy;
  FinalSignal : string;
  Confidence : string;
  RiskLevel : string;
  RugPullRisk : string;
  VolumeConfirm : bool
}.

Definition UltimateMemecoinAnalysis_zero : UltimateMemecoinAnalysis :=
  mkUltimateMemecoinAnalysis CombinedTechnicalAnalysis_zero VolumeStrategy_zero
    "" "" "" "" false.

(** [a == b] on strings. *)
Infix "=s" := String.eqb (at level 70, no associativity).

(** ** The [[][]string] variants *)

Module Legacy.
Section Legacy.

(** [strconv.ParseFloat(s, 64)]; [None] when it returns an error. *)
Variable ParseFloat : string -> option float64.
(** [math.Sqrt] *)
Variable Sqrt : float64 -> float64.

(** A candle is [timestamp, open, close, high, low, volume]. *)
Definition extractPrice (candle : list string) (priceType : PriceType) : result float64 :=
  if (len candle <? 6)%Z then fail 0 ErrCandleFields
  else
    match ParseFloat (index "" candle 1) with
    | None => fail 0 ErrInvalidOpen
    | Some open =>
    match ParseFloat (index "" candle 2) with
    | None => fail 0 ErrInvalidClose
    | Some close =>
    match ParseFloat (index "" candle 3) with
    | None => fail 0 ErrInvalidHigh
    | Some high =>
    match ParseFloat (index "" candle 4) with
    | None => fail 0 ErrInvalidLow
    | Some low =>
        match priceType with
        | 1%Z => ok open
        | 0%Z => ok close
        | 2%Z => ok high
        | 3%Z => ok low
        | 4%Z => ok ((high + low + close) / 3)
        | 5%Z => ok ((high + low + 2 * close) / 4)
        | _ => ok close
        end
    end end end end.

Definition CalculateSMA (dataset : list (list string)) (period : Z) (priceType : PriceType)
  : result (list SMAResult) :=
  if (len dataset =? 0)%Z then fail [] ErrDatasetEmpty
  else if (period <=? 0)%Z then fail [] ErrPeriodNotPositive
  else if (period >? len dataset)%Z then fail [] (ErrPeriodTooLarge period (len dataset))
  else
    match
      for_range_err (period - 1) (len dataset) (fun i results =>
        match
          for_range_err (i - period + 1) (i + 1) (fun j sum =>
            match extractPrice (index [] dataset j) priceType with
            | (_, Some err) => inr (ErrAtIndex j err)
            | (price, None) => inl (sum + price)
            end) 0
        with
        | inr e => inr e
        | inl sum =>
            let smaValue := sum / float64_of_int period in
            inl (results ++ [mkSMAResult (index "" (index [] dataset i) 0) smaValue])
        end) []
    with
    | inr e => fail [] e
    | inl results => ok results
    end.

Definition CalculateBollingerBands (dataset : list (list string)) (period : Z)
    (multiplier : float64) (priceType : PriceType) : result (list BollingerBands) :=
  if (len dataset =? 0)%Z then fail [] ErrDatasetEmpty
  else if (period <=? 0)%Z then fail [] ErrPeriodNotPositive
  else if (period >? len dataset)%Z then fail [] (ErrPeriodTooLarge period (len dataset))
  else if fle multiplier 0 then fail [] ErrMultiplierNotPositive
  else
    match
      for_range_err (period - 1) (len dataset) (fun i results =>
        match
          for_range_err (i - period + 1) (i + 1) (fun j '(prices, sum) =>
            match extractPrice (index [] dataset j) priceType with
            | (_, Some err) => inr (ErrAtIndex j err)
            | (price, None) => inl (prices ++ [price], sum + price)
            end) ([], 0)
        with
        | inr e => inr e
        | inl (prices, sum) =>
            let sma := sum / float64_of_int period in
            let varianceSum :=
              fold_left (fun varianceSum price =>
                let diff := price - sma in
                varianceSum + diff * diff) prices 0 in
            let stdDev := Sqrt (varianceSum / float64_of_int period) in
            let upperBand := sma + (multiplier * stdDev) in
            let lowerBand := sma - (multiplier * stdDev) in
            let bandWidth := if fne sma 0 then (upperBand - lowerBand) / sma else 0 in
            inl (results ++
                 [mkBollingerBands (index "" (index [] dataset i) 0)
                    upperBand sma lowerBand bandWidth])
        end) []
    with
    | inr e => fail [] e
    | inl results => ok results
    end.

Definition GetLatestSMA (dataset : list (list string)) (period : Z) (priceType : PriceType)
  : result float64 :=
  let? smaResults := CalculateSMA dataset period priceType else 0 in
  if (len smaResults =? 0)%Z then fail 0 ErrNoSMAResults
  else ok (SMA_Value (index SMAResult_zero smaResults (len smaResults - 1))).

Definition IsPriceAboveSMA (dataset : list (list string)) (period : Z) (priceType : PriceType)
  : result bool :=
  if (len dataset =? 0)%Z then fail false ErrDatasetEmpty
  else
    let? latestSMA := GetLatestSMA dataset period priceType else false in
    let? currentPrice := extractPrice (index [] dataset (len dataset - 1)) ClosePrice
      else false in
    ok (fgt currentPrice latestSMA).

Definition SMACrossover (dataset : list (list string)) (fastPeriod slowPeriod : Z)
    (priceType : PriceType) : result string :=
  if (fastPeriod >=? slowPeriod)%Z then fail "" ErrFastNotLess
  else if (len dataset <? slowPeriod + 1)%Z then fail "" ErrCrossoverData
  else
    let? fastSMA := CalculateSMA dataset fastPeriod priceType else "" in
    let? slowSMA := CalculateSMA dataset slowPeriod priceType else "" in
    if (len fastSMA <? 2)%Z || (len slowSMA <? 2)%Z then ok "no_signal"
    else
      let fastCurrent := SMA_Value (index SMAResult_zero fastSMA (len fastSMA - 1)) in
      let fastPrevious := SMA_Value (index SMAResult_zero fastSMA (len fastSMA - 2)) in
      let slowCurrent := SMA_Value (index SMAResult_zero slowSMA (len slowSMA - 1)) in
      let slowPrevious := SMA_Value (index SMAResult_zero slowSMA (len slowSMA - 2)) in
      if fle fastPrevious slowPrevious && fgt fastCurrent slowCurrent
      then ok "bullish_crossover"
      else if fge fastPrevious slowPrevious && flt fastCurrent slowCurrent
      then ok "bearish_crossover"
      else ok "no_signal".

Definition GetLatestBollingerBands (dataset : list (list string)) (period : Z)
    (multiplier : float64) (priceType : PriceType) : result BollingerBands :=
  let? bands := CalculateBollingerBands dataset period multiplier priceType
    else BollingerBands_zero in
  if (len bands =? 0)%Z then fail BollingerBands_zero ErrNoBands
  else ok (index BollingerBands_zero bands (len bands - 1)).

Definition GetPricePosition (dataset : list (list string)) (period : Z) (multiplier : float64)
    (priceType : PriceType) (tolerance : float64) : result BollingerPosition :=
  if (len dataset =? 0)%Z then fail "" ErrDatasetEmpty
  else
    let? bands := GetLatestBollingerBands dataset period multiplier priceType else "" in
    let? currentPrice := extractPrice (index [] dataset (len dataset - 1)) ClosePrice
      else "" in
    let upperTolerance := UpperBand bands * (1 - tolerance) in
    let lowerTolerance := LowerBand bands * (1 + tolerance) in
    if fgt currentPrice (UpperBand bands) then ok AboveUpperBand
    else if flt currentPrice (LowerBand bands) then ok BelowLowerBand
    else if fge currentPrice upperTolerance then ok TouchingUpper
    else if fle currentPrice lowerTolerance then ok TouchingLower
    else ok BetweenBands.

Definition BollingerSqueeze (dataset : list (list string)) (period : Z) (multiplier : float64)
    (priceType : PriceType) (lookback : Z) : result bool :=
  let? bands := CalculateBollingerBands dataset period multiplier priceType else false in
  if (len bands <? lookback)%Z then fail false ErrSqueezeData
  else
    let recentBands := slice_from bands (len bands - lookback) in
    let totalWidth :=
      fold_left (fun totalWidth band => totalWidth + BandWidth band) recentBands 0 in
    let avgWidth := totalWidth / float64_of_int lookback in
    let currentWidth := BandWidth (index BollingerBands_zero bands (len bands - 1)) in
    ok (flt currentWidth (avgWidth * (7 # 10))).

Definition BollingerBreakout (dataset : list (list string)) (period : Z) (multiplier : float64)
    (priceType : PriceType) : result string :=
  if (len dataset <? 2)%Z then ok "insufficient_data"
  else
    let? currentPos := GetPricePosition dataset period multiplier priceType (2 # 100) else "" in
    let prevDataset := slice_to dataset (len dataset - 1) in
    if (len prevDataset <? period)%Z then ok "insufficient_data"
    else
      let? prevPos := GetPricePosition prevDataset period multiplier priceType (2 # 100) else "" in
      if (prevPos =s BetweenBands) && (currentPos =s AboveUpperBand) then ok "bullish_breakout"
      else if (prevPos =s BetweenBands) && (currentPos =s BelowLowerBand) then ok "bearish_breakout"
      else if (prevPos =s TouchingUpper) && (currentPos =s AboveUpperBand) then ok "bullish_breakout"
      else if (prevPos =s TouchingLower) && (currentPos =s BelowLowerBand) then ok "bearish_breakout"
      else ok "no_breakout".

Definition AnalyzeBollingerStrategy (dataset : list (list string)) (period : Z)
    (multiplier : float64) (priceType : PriceType) : result BollingerStrategy :=
  let? position := GetPricePosition dataset period multiplier priceType (2 # 100)
    else BollingerStrategy_zero in
  let? breakout := BollingerBreakout dataset period multiplier priceType
    else BollingerStrategy_zero in
  let? squeeze := BollingerSqueeze dataset period multiplier priceType 10
    else BollingerStrategy_zero in
  let? bands := GetLatestBollingerBands dataset period multiplier priceType
    else BollingerStrategy_zero in
  let signal :=
    if (breakout =s "bullish_breakout") && negb squeeze then "strong_buy"
    else if (breakout =s "bearish_breakout") && negb squeeze then "strong_sell"
    else if (position =s BelowLowerBand) && squeeze then "buy"
    else if (position =s AboveUpperBand) && squeeze then "sell"
    else if squeeze && (position =s BetweenBands) then "wait_for_breakout"
    else if position =s TouchingLower then "buy_signal"
    else if position =s TouchingUpper then "sell_signal"
    else "hold" in
  ok (mkBollingerStrategy position breakout squeeze (BandWidth bands) signal).

End Legacy.
End Legacy.

(** ** Volatility band engine, [[]OHLCV] variant *)

Module Bands.
Section Bands.

Variable Format : Time -> string.
Variable Sqrt : float64 -> float64.

(** Modelled from the spec: the [[]OHLCV] variant of CalculateBollingerBands
    is not among the sources.  Section 4.3: for every eligible index the mean
    [m] and the population standard deviation [s] of the selected price over
    the trailing window; upper [m + k*s], lower [m - k*s]; band width
    [(upper - lower) / m] when [m] is not 0, else 0; [k > 0] or it fails.
    Section 4.2 gives the bounds on [period]. *)
Definition CalculateBollingerBands (dataset : list OHLCV) (period : Z)
    (multiplier : float64) (priceType : PriceType) : result (list BollingerBands) :=
  if (len dataset =? 0)%Z then fail [] ErrDatasetEmpty
  else if (period <=? 0)%Z then fail [] ErrPeriodNotPositive
  else if (period >? len dataset)%Z then fail [] (ErrPeriodTooLarge period (len dataset))
  else if fle multiplier 0 then fail [] ErrMultiplierNotPositive
  else
    let results :=
      for_range (period - 1) (len dataset) (fun i results =>
        let '(prices, sum) :=
          for_range (i - period + 1) (i + 1) (fun j '(prices, sum) =>
            let price := ExtractPrice (index OHLCV_zero dataset j) priceType in
            (prices ++ [price], sum + price)) ([], 0) in
        let sma := sum / float64_of_int period in
        let varianceSum :=
          fold_left (fun varianceSum price =>
            let diff := price - sma in
            varianceSum + diff * diff) prices 0 in
        let stdDev := Sqrt (varianceSum / float64_of_int period) in
        let upperBand := sma + (multiplier * stdDev) in
        let lowerBand := sma - (multiplier * stdDev) in
        let bandWidth := if fne sma 0 then (upperBand - lowerBand) / sma else 0 in
        results ++
          [mkBollingerBands (Format (Timestamp (index OHLCV_zero dataset i)))
             upperBand sma lowerBand bandWidth]) [] in
    ok results.

(** Modelled from the spec: the latest band of the series (section 4.3,
    "the latest band"). *)
Definition GetLatestBollingerBands (dataset : list OHLCV) (period : Z)
    (multiplier : float64) (priceType : PriceType) : result BollingerBands :=
  let? bands := CalculateBollingerBands dataset period multiplier priceType
    else BollingerBands_zero in
  if (len bands =? 0)%Z then fail BollingerBands_zero ErrNoBands
  else ok (index BollingerBands_zero bands (len bands - 1)).

(** Modelled from the spec: section 4.3, position classification against the
    latest band with tolerance [t], always on the close price. *)
Definition GetPricePosition (dataset : list OHLCV) (period : Z) (multiplier : float64)
    (priceType : PriceType) (tolerance : float64) : result BollingerPosition :=
  if (len dataset =? 0)%Z then fail "" ErrDatasetEmpty
  else
    let? bands := GetLatestBollingerBands dataset period multiplier priceType else "" in
    let currentPrice := ExtractPrice (index OHLCV_zero dataset (len dataset - 1)) ClosePrice in
    let upperTolerance := UpperBand bands * (1 - tolerance) in
    let lowerTolerance := LowerBand bands * (1 + tolerance) in
    if fgt currentPrice (UpperBand bands) then ok AboveUpperBand
    else if flt currentPrice (LowerBand bands) then ok BelowLowerBand
    else if fge currentPrice upperTolerance then ok TouchingUpper
    else if fle currentPrice lowerTolerance then ok TouchingLower
    else ok BetweenBands.

(** Modelled from the spec: section 4.3, squeeze detection over a lookback
    count [L]: the latest band width below 70% of the mean of the last [L]. *)
Definition BollingerSqueeze (dataset : list OHLCV) (period : Z) (multiplier : float64)
    (priceType : PriceType) (lookback : Z) : result bool :=
  let? bands := CalculateBollingerBands dataset period multiplier priceType else false in
  if (len bands <? lookback)%Z then fail false ErrSqueezeData
  else
    let recentBands := slice_from bands (len bands - lookback) in
    let totalWidth :=
      fold_left (fun totalWidth band => totalWidth + BandWidth band) recentBands 0 in
    let avgWidth := totalWidth / float64_of_int lookback in
    let currentWidth := BandWidth (index BollingerBands_zero bands (len bands - 1)) in
    ok (flt currentWidth (avgWidth * (7 # 10))).

(** Modelled from the spec: section 4.3, breakout detection: the position on
    the full series against the position on the series without its last bar,
    both with the 2% tolerance. *)
Definition BollingerBreakout (dataset : list OHLCV) (period : Z) (multiplier : float64)
    (priceType : PriceType) : result string :=
  if (len dataset <? 2)%Z then ok "insufficient_data"
  else
    let? currentPos := GetPricePosition dataset period multiplier priceType (2 # 100) else "" in
    let prevDataset := slice_to dataset (len dataset - 1) in
    if (len prevDataset <? period)%Z then ok "insufficient_data"
    else
      let? prevPos := GetPricePosition prevDataset period multiplier priceType (2 # 100) else "" in
      if (prevPos =s BetweenBands) && (currentPos =s AboveUpperBand) then ok "bullish_breakout"
      else if (prevPos =s BetweenBands) && (currentPos =s BelowLowerBand) then ok "bearish_breakout"
      else if (prevPos =s TouchingUpper) && (currentPos =s AboveUpperBand) then ok "bullish_breakout"
      else if (prevPos =s TouchingLower) && (currentPos =s BelowLowerBand) then ok "bearish_breakout"
      else ok "no_breakout".

(** Modelled from the spec: section 4.3, the strategy fusion of this engine,
    with the squeeze lookback of 10 points. *)
Definition AnalyzeBollingerStrategy (dataset : list OHLCV) (period : Z)
    (multiplier : float64) (priceType : PriceType) : result BollingerStrategy :=
  let? position := GetPricePosition dataset period multiplier priceType (2 # 100)
    else BollingerStrategy_zero in
  let? breakout := BollingerBreakout dataset period multiplier priceType
    else BollingerStrategy_zero in
  let? squeeze := BollingerSqueeze dataset period multiplier priceType 10
    else BollingerStrategy_zero in
  let? bands := GetLatestBollingerBands dataset period multiplier priceType
    else BollingerStrategy_zero in
  let signal :=
    if (breakout =s "bullish_breakout") && negb squeeze then "strong_buy"
    else if (breakout =s "bearish_breakout") && negb squeeze then "strong_sell"
    else if (position =s BelowLowerBand) && squeeze then "buy"
    else if (position =s AboveUpperBand) && squeeze then "sell"
    else if squeeze && (position =s BetweenBands) then "wait_for_breakout"
    else if position =s TouchingLower then "buy_signal"
    else if position =s TouchingUpper then "sell_signal"
    else "hold" in
  ok (mkBollingerStrategy position breakout squeeze (BandWidth bands) signal).

End Bands.
End Bands.

(** ** Moving average engine, [[]OHLCV] variant *)

Section Engines.

(** [t.Format("2006-01-02T15:04:05Z")] *)
Variable Format : Time -> string.

Definition CalculateSMA (dataset : list OHLCV) (period : Z) (priceType : PriceType)
  : result (list SMAResult) :=
  if (len dataset =? 0)%Z then fail [] ErrDatasetEmpty
  else if (period <=? 0)%Z then fail [] ErrPeriodNotPositive
  else if (period >? len dataset)%Z then fail [] (ErrPeriodTooLarge period (len dataset))
  else
    let results :=
      for_range (period - 1) (len dataset) (fun i results =>
        let sum :=
          for_range (i - period + 1) (i + 1) (fun j sum =>
            let price := ExtractPrice (index OHLCV_zero dataset j) priceType in
            sum + price) 0 in
        let smaValue := sum / float64_of_int period in
        results ++ [mkSMAResult (Format (Timestamp (index OHLCV_zero dataset i))) smaValue])
        [] in
    ok results.

Definition GetLatestSMA (dataset : list OHLCV) (period : Z) (priceType : PriceType)
  : result float64 :=
  let? smaResults := CalculateSMA dataset period priceType else 0 in
  if (len smaResults =? 0)%Z then fail 0 ErrNoSMAResults
  else ok (SMA_Value (index SMAResult_zero smaResults (len smaResults - 1))).

Definition IsPriceAboveSMA (dataset : list OHLCV) (period : Z) (priceType : PriceType)
  : result bool :=
  if (len dataset =? 0)%Z then fail false ErrDatasetEmpty
  else
    let? latestSMA := GetLatestSMA dataset period priceType else false in
    let currentPrice := ExtractPrice (index OHLCV_zero dataset (len dataset - 1)) ClosePrice in
    ok (fgt currentPrice latestSMA).

Definition SMACrossover (dataset : list OHLCV) (fastPeriod slowPeriod : Z)
    (priceType : PriceType) : result string :=
  if (fastPeriod >=? slowPeriod)%Z then fail "" ErrFastNotLess
  else if (len dataset <? slowPeriod + 1)%Z then fail "" ErrCrossoverData
  else
    let? fastSMA := CalculateSMA dataset fastPeriod priceType else "" in
    let? slowSMA := CalculateSMA dataset slowPeriod priceType else "" in
    if (len fastSMA <? 2)%Z || (len slowSMA <? 2)%Z then ok "no_signal"
    else
      let fastCurrent := SMA_Value (index SMAResult_zero fastSMA (len fastSMA - 1)) in
      let fastPrevious := SMA_Value (index SMAResult_zero fastSMA (len fastSMA - 2)) in
      let slowCurrent := SMA_Value (index SMAResult_zero slowSMA (len slowSMA - 1)) in
      let slowPrevious := SMA_Value (index SMAResult_zero slowSMA (len slowSMA - 2)) in
      if fle fastPrevious slowPrevious && fgt fastCurrent slowCurrent
      then ok "bullish_crossover"
      else if fge fastPrevious slowPrevious && flt fastCurrent slowCurrent
      then ok "bearish_crossover"
      else ok "no_signal".

(** ** Momentum oscillator engine *)

Definition getRSISignal (rsi : float64) : string :=
  if fge rsi 80 then "extreme_overbought"
  else if fge rsi 70 then "overbought"
  else if fle rsi 20 then "extreme_oversold"
  else if fle rsi 30 then "oversold"
  else "neutral".

Definition CalculateRSI (dataset : list OHLCV) (period : Z) (priceType : PriceType)
  : result (list RSIResult) :=
  if (len dataset =? 0)%Z then fail [] ErrDatasetEmpty
  else if (period <=? 0)%Z then fail [] ErrPeriodNotPositive
  else if (period >=? len dataset)%Z then fail [] (ErrPeriodNotLess period (len dataset))
  else
    let prices :=
      fold_left (fun prices candle =>
        let price := ExtractPrice candle priceType in
        prices ++ [price]) dataset [] in
    let '(gains, losses) :=
      for_range 1 (len prices) (fun i '(gains, losses) =>
        let change := index 0 prices i - index 0 prices (i - 1) in
        if fgt change 0 then (gains ++ [change], losses ++ [0])
        else (gains ++ [0], losses ++ [- change])) ([], []) in
    if (len gains <? period)%Z then fail [] (ErrInsufficientChanges period)
    else
      let '(avgGain, avgLoss) :=
        for_range 0 period (fun i '(avgGain, avgLoss) =>
          (avgGain + index 0 gains i, avgLoss + index 0 losses i)) (0, 0) in
      let avgGain := avgGain / float64_of_int period in
      let avgLoss := avgLoss / float64_of_int period in
      let rs := avgGain / avgLoss in
      let rs := if feq avgLoss 0 then 100 else rs in
      let rsi := 100 - (100 / (1 + rs)) in
      let signal := getRSISignal rsi in
      let results :=
        [mkRSIResult (Format (Timestamp (index OHLCV_zero dataset period))) rsi signal] in
      let '(_, _, results) :=
        for_range period (len gains) (fun i '(avgGain, avgLoss, results) =>
          let avgGain :=
            ((avgGain * float64_of_int (period - 1)) + index 0 gains i)
            / float64_of_int period in
          let avgLoss :=
            ((avgLoss * float64_of_int (period - 1)) + index 0 losses i)
            / float64_of_int period in
          let rs := avgGain / avgLoss in
          let rs := if feq avgLoss 0 then 100 else rs in
          let rsi := 100 - (100 / (1 + rs)) in
          let signal := getRSISignal rsi in
          (avgGain, avgLoss,
           results ++
             [mkRSIResult (Format (Timestamp (index OHLCV_zero dataset (i + 1)))) rsi signal]))
          (avgGain, avgLoss, results) in
      ok results.

Definition GetLatestRSI (dataset : list OHLCV) (period : Z) (priceType : PriceType)
  : result RSIResult :=
  let? rsiResults := CalculateRSI dataset period priceType else RSIResult_zero in
  if (len rsiResults =? 0)%Z then fail RSIResult_zero ErrNoRSIResults
  else ok (index RSIResult_zero rsiResults (len rsiResults - 1)).

Definition DetectRSIDivergence (dataset : list OHLCV) (period : Z) (priceType : PriceType)
    (lookback : Z) : result RSIDivergence :=
  let lookback := if (lookback <? 5)%Z then 5%Z else lookback in
  let? rsiResults := CalculateRSI dataset period priceType else RSIDivergence_zero in
  if (len rsiResults <? lookback)%Z || (len dataset <? lookback)%Z
  then ok (mkRSIDivergence "none" "insufficient_data" 0)
  else
    let recentRSI := slice_from rsiResults (len rsiResults - lookback) in
    let recentPrices := slice_from dataset (len dataset - lookback) in
    let '(priceHighs, priceLows, rsiHighs, rsiLows) :=
      for_range 0 (len recentRSI) (fun i '(priceHighs, priceLows, rsiHighs, rsiLows) =>
        let rsi := index RSIResult_zero recentRSI i in
        let price := ExtractPrice (index OHLCV_zero recentPrices i) ClosePrice in
        if (i >? 0)%Z && (i <? len recentRSI - 1)%Z then
          let prevRSI := RSI_Value (index RSIResult_zero recentRSI (i - 1)) in
          let nextRSI := RSI_Value (index RSIResult_zero recentRSI (i + 1)) in
          let '(priceHighs, rsiHighs) :=
            if fgt (RSI_Value rsi) prevRSI && fgt (RSI_Value rsi) nextRSI
            then (priceHighs ++ [price], rsiHighs ++ [RSI_Value rsi])
            else (priceHighs, rsiHighs) in
          let '(priceLows, rsiLows) :=
            if flt (RSI_Value rsi) prevRSI && flt (RSI_Value rsi) nextRSI
            then (priceLows ++ [price], rsiLows ++ [RSI_Value rsi])
            else (priceLows, rsiLows) in
          (priceHighs, priceLows, rsiHighs, rsiLows)
        else (priceHighs, priceLows, rsiHighs, rsiLows)) ([], [], [], []) in
    let bearish :=
      if (len priceHighs >=? 2)%Z && (len rsiHighs >=? 2)%Z then
        let lastPriceHigh := index 0 priceHighs (len priceHighs - 1) in
        let prevPriceHigh := index 0 priceHighs (len priceHighs - 2) in
        let lastRSIHigh := index 0 rsiHighs (len rsiHighs - 1) in
        let prevRSIHigh := index 0 rsiHighs (len rsiHighs - 2) in
        if fgt lastPriceHigh prevPriceHigh && flt lastRSIHigh prevRSIHigh then
          let confidence := Qabs (lastRSIHigh - prevRSIHigh) / 10 in
          let confidence := if fgt confidence 1 then 1 else confidence in
          Some (mkRSIDivergence "bearish" "regular" confidence)
        else None
      else None in
    match bearish with
    | Some divergence => ok divergence
    | None =>
      let bullish :=
        if (len priceLows >=? 2)%Z && (len rsiLows >=? 2)%Z then
          let lastPriceLow := index 0 priceLows (len priceLows - 1) in
          let prevPriceLow := index 0 priceLows (len priceLows - 2) in
          let lastRSILow := index 0 rsiLows (len rsiLows - 1) in
          let prevRSILow := index 0 rsiLows (len rsiLows - 2) in
          if flt lastPriceLow prevPriceLow && fgt lastRSILow prevRSILow then
            let confidence := Qabs (lastRSILow - prevRSILow) / 10 in
            let confidence := if fgt confidence 1 then 1 else confidence in
            Some (mkRSIDivergence "bullish" "regular" confidence)
          else None
        else None in
      match bullish with
      | Some divergence => ok divergence
      | None => ok (mkRSIDivergence "none" "none" 0)
      end
    end.

Definition AnalyzeRSIStrategy (dataset : list OHLCV) (period : Z) (priceType : PriceType)
  : result RSIStrategy :=
  let? currentRSI := GetLatestRSI dataset period priceType else RSIStrategy_zero in
  let condition :=
    if fge (RSI_Value currentRSI) 80 then RSIExtremeHigh
    else if fge (RSI_Value currentRSI) 70 then RSIOverbought
    else if fle (RSI_Value currentRSI) 20 then RSIExtremeLow
    else if fle (RSI_Value currentRSI) 30 then RSIOversold
    else RSINeutral in
  let? divergence := DetectRSIDivergence dataset period priceType 10 else RSIStrategy_zero in
  let? rsiResults := CalculateRSI dataset period priceType else RSIStrategy_zero in
  let momentum :=
    if (len rsiResults >=? 3)%Z then
      let recent := slice_from rsiResults (len rsiResults - 3) in
      let r0 := RSI_Value (index RSIResult_zero recent 0) in
      let r1 := RSI_Value (index RSIResult_zero recent 1) in
      let r2 := RSI_Value (index RSIResult_zero recent 2) in
      if fgt r2 r1 && fgt r1 r0 then "strengthening"
      else if flt r2 r1 && flt r1 r0 then "weakening"
      else "neutral"
    else "neutral" in
  let signal :=
    if (condition =s RSIExtremeLow) && (RD_Type divergence =s "bullish") then "strong_buy"
    else if (condition =s RSIExtremeHigh) && (RD_Type divergence =s "bearish") then "strong_sell"
    else if (condition =s RSIOversold) && (momentum =s "strengthening") then "buy"
    else if (condition =s RSIOverbought) && (momentum =s "weakening") then "sell"
    else if fgt (RSI_Value currentRSI) 50 && (momentum =s "strengthening") then "bullish"
    else if flt (RSI_Value currentRSI) 50 && (momentum =s "weakening") then "bearish"
    else "hold" in
  ok (mkRSIStrategy currentRSI condition divergence signal momentum).

(** ** Volume engine *)

Definition CalculateVolumeAnalysis (dataset : list OHLCV) (vmaPeriod vrocPeriod : Z)
  : result (list VolumeResult) :=
  if (len dataset =? 0)%Z then fail [] ErrDatasetEmpty
  else if (vmaPeriod <=? 0)%Z || (vrocPeriod <=? 0)%Z then fail [] ErrPeriodsNotPositive
  else
    let maxPeriod := vmaPeriod in
    let maxPeriod := if (vrocPeriod >? maxPeriod)%Z then vrocPeriod else maxPeriod in
    if (len dataset <=? maxPeriod)%Z then fail [] (ErrInsufficientCandles maxPeriod)
    else
      let volumes := map Volume dataset in
      let closes := map Close dataset in
      let highs := map High dataset in
      let lows := map Low dataset in
      let obv := index 0 volumes 0 in
      let vpt := index 0 volumes 0 in
      let adl := index 0 volumes 0 in
      let '(results, _, _, _) :=
        for_range maxPeriod (len dataset) (fun i '(results, obv, vpt, adl) =>
          let vmaSum :=
            for_range (i - vmaPeriod + 1) (i + 1) (fun j vmaSum =>
              vmaSum + index 0 volumes j) 0 in
          let vma := vmaSum / float64_of_int vmaPeriod in
          let obv :=
            if (i >? 0)%Z then
              if fgt (index 0 closes i) (index 0 closes (i - 1)) then obv + index 0 volumes i
              else if flt (index 0 closes i) (index 0 closes (i - 1)) then obv - index 0 volumes i
              else obv
            else obv in
          let vpt :=
            if (i >? 0)%Z && fne (index 0 closes (i - 1)) 0 then
              let priceChange :=
                (index 0 closes i - index 0 closes (i - 1)) / index 0 closes (i - 1) in
              vpt + index 0 volumes i * priceChange
            else vpt in
          let vroc :=
            if (i >=? vrocPeriod)%Z && fne (index 0 volumes (i - vrocPeriod)) 0 then
              ((index 0 volumes i - index 0 volumes (i - vrocPeriod))
               / index 0 volumes (i - vrocPeriod)) * 100
            else 0 in
          let adl :=
            if fne (index 0 highs i) (index 0 lows i) then
              let moneyFlowMultiplier :=
                ((index 0 closes i - index 0 lows i) - (index 0 highs i - index 0 closes i))
                / (index 0 highs i - index 0 lows i) in
              let moneyFlowVolume := moneyFlowMultiplier * index 0 volumes i in
              adl + moneyFlowVolume
            else adl in
          (results ++
             [mkVolumeResult (Format (Timestamp (index OHLCV_zero dataset i)))
                (index 0 volumes i) vma obv vpt vroc adl],
           obv, vpt, adl))
          ([], obv, vpt, adl) in
      ok results.

Definition GetLatestVolumeAnalysis (dataset : list OHLCV) (vmaPeriod vrocPeriod : Z)
  : result VolumeResult :=
  let? results := CalculateVolumeAnalysis dataset vmaPeriod vrocPeriod else VolumeResult_zero in
  if (len results =? 0)%Z then fail VolumeResult_zero ErrNoVolumeResults
  else ok (index VolumeResult_zero results (len results - 1)).

Definition DetectVolumeBreakout (dataset : list OHLCV) (vmaPeriod : Z) (multiplier : float64)
  : result VolumeSignal :=
  let? latest := GetLatestVolumeAnalysis dataset vmaPeriod 5 else VolumeSignal_zero in
  let volumeRatio := VR_Volume latest / VMA latest in
  let '(strength, confidence) :=
    if fge volumeRatio (multiplier * 3) then ("extreme", 9 # 10)
    else if fge volumeRatio (multiplier * 2) then ("strong", 8 # 10)
    else if fge volumeRatio multiplier then ("moderate", 6 # 10)
    else ("weak", 3 # 10) in
  let '(type, trend) :=
    if fge volumeRatio multiplier then
      ("breakout",
       if (len dataset >=? 2)%Z then
         let currentClose := Close (index OHLCV_zero dataset (len dataset - 1)) in
         let prevClose := Close (index OHLCV_zero dataset (len dataset - 2)) in
         if fgt currentClose prevClose && fgt (OBV latest) 0 then "bullish"
         else if flt currentClose prevClose then "bearish"
         else "neutral"
       else "")
    else ("normal", "neutral") in
  ok (mkVolumeSignal type strength trend confidence).

Definition DetectAccumulationDistribution (dataset : list OHLCV) (lookback : Z)
  : result VolumeSignal :=
  let lookback := if (lookback <? 5)%Z then 5%Z else lookback in
  let? results := CalculateVolumeAnalysis dataset 10 5 else VolumeSignal_zero in
  if (len results <? lookback)%Z then ok (mkVolumeSignal "insufficient_data" "" "" 0)
  else
    let recent := slice_from results (len results - lookback) in
    let '(adlSum, timeSum, adlTimeSum, timeSquareSum) :=
      for_range 0 (len recent) (fun i '(adlSum, timeSum, adlTimeSum, timeSquareSum) =>
        let result := index VolumeResult_zero recent i in
        let time := float64_of_int i in
        (adlSum + ADL result, timeSum + time,
         adlTimeSum + ADL result * time, timeSquareSum + time * time))
        (0, 0, 0, 0) in
    let n := float64_of_int (len recent) in
    let slope :=
      (n * adlTimeSum - timeSum * adlSum) / (n * timeSquareSum - timeSum * timeSum) in
    if fgt slope 1000 then ok (mkVolumeSignal "accumulation" "strong" "bullish" (8 # 10))
    else if fgt slope 100 then ok (mkVolumeSignal "accumulation" "moderate" "bullish" (6 # 10))
    else if flt slope (-1000) then ok (mkVolumeSignal "distribution" "strong" "bearish" (8 # 10))
    else if flt slope (-100) then ok (mkVolumeSignal "distribution" "moderate" "bearish" (6 # 10))
    else ok (mkVolumeSignal "neutral" "weak" "neutral" (3 # 10)).

Definition AnalyzeVolumeStrategy (dataset : list OHLCV) (vmaPeriod vrocPeriod : Z)
  : result VolumeStrategy :=
  let? current := GetLatestVolumeAnalysis dataset vmaPeriod vrocPeriod
    else VolumeStrategy_zero in
  let? breakoutSignal := DetectVolumeBreakout dataset vmaPeriod 2 else VolumeStrategy_zero in
  let? accumSignal := DetectAccumulationDistribution dataset 10 else VolumeStrategy_zero in
  let volumeRatio := VR_Volume current / VMA current in
  let results := fst (CalculateVolumeAnalysis dataset vmaPeriod vrocPeriod) in
  let obvTrend :=
    if (len results >=? 3)%Z then
      let recent := slice_from results (len results - 3) in
      let o0 := OBV (index VolumeResult_zero recent 0) in
      let o1 := OBV (index VolumeResult_zero recent 1) in
      let o2 := OBV (index VolumeResult_zero recent 2) in
      if fgt o2 o1 && fgt o1 o0 then "rising"
      else if flt o2 o1 && flt o1 o0 then "falling"
      else "sideways"
    else "sideways" in
  let signal :=
    if (VS_Type breakoutSignal =s "breakout") && (VS_Trend breakoutSignal =s "bullish")
       && (VS_Type accumSignal =s "accumulation") then "strong_buy"
    else if (VS_Type breakoutSignal =s "breakout") && (VS_Trend breakoutSignal =s "bearish")
       && (VS_Type accumSignal =s "distribution") then "strong_sell"
    else if (VS_Type breakoutSignal =s "breakout") && (VS_Trend breakoutSignal =s "bullish")
    then "buy"
    else if (VS_Type breakoutSignal =s "breakout") && (VS_Trend breakoutSignal =s "bearish")
    then "sell"
    else if (VS_Type accumSignal =s "accumulation") && (obvTrend =s "rising") then "accumulate"
    else if (VS_Type accumSignal =s "distribution") && (obvTrend =s "falling") then "distribute"
    else if flt volumeRatio (5 # 10) then "low_volume_alert"
    else "hold" in
  ok (mkVolumeStrategy current breakoutSignal accumSignal volumeRatio obvTrend signal).

(** ** Signal fusion layer *)

Section Fusion.

(** The [[]OHLCV] variant of AnalyzeBollingerStrategy, which the fusion
    calls, is not among the sources: the fusion is embedded over any band
    engine of that signature ([Bands.AnalyzeBollingerStrategy] is one). *)
Variable AnalyzeBollingerStrategy :
  list OHLCV -> Z -> float64 -> PriceType -> result BollingerStrategy.

Definition ComprehensiveAnalysis (dataset : list OHLCV) (smaPeriod bbPeriod rsiPeriod : Z)
    (bbMultiplier : float64) (priceType : PriceType) : result CombinedTechnicalAnalysis :=
  let isAboveSMA := fst (IsPriceAboveSMA dataset smaPeriod priceType) in
  let smaCross := fst (SMACrossover dataset (Z.quot smaPeriod 2) smaPeriod priceType) in
  let smaSignal :=
    if isAboveSMA && (smaCross =s "bullish_crossover") then "strong_bullish"
    else if negb isAboveSMA && (smaCross =s "bearish_crossover") then "strong_bearish"
    else if isAboveSMA then "bullish"
    else "bearish" in
  let bbStrategy := fst (AnalyzeBollingerStrategy dataset bbPeriod bbMultiplier priceType) in
  let rsiStrategy := fst (AnalyzeRSIStrategy dataset rsiPeriod priceType) in
  let signals := [smaSignal; BS_Signal bbStrategy; RS_Signal rsiStrategy] in
  let '(bullishCount, bearishCount) :=
    fold_left (fun '(bullishCount, bearishCount) signal =>
      if (signal =s "strong_buy") || (signal =s "buy") || (signal =s "bullish")
         || (signal =s "strong_bullish")
      then ((bullishCount + 1)%Z, bearishCount)
      else if (signal =s "strong_sell") || (signal =s "sell") || (signal =s "bearish")
         || (signal =s "strong_bearish")
      then (bullishCount, (bearishCount + 1)%Z)
      else (bullishCount, bearishCount)) signals (0%Z, 0%Z) in
  let '(finalSignal, confidence, riskLevel) :=
    if (bullishCount >=? 3)%Z then ("STRONG BUY", "HIGH", "LOW")
    else if (bullishCount >=? 2)%Z then ("BUY", "MEDIUM", "LOW")
    else if (bearishCount >=? 3)%Z then ("STRONG SELL", "HIGH", "HIGH")
    else if (bearishCount >=? 2)%Z then ("SELL", "MEDIUM", "MEDIUM")
    else if BS_Signal bbStrategy =s "wait_for_breakout" then ("WAIT", "HIGH", "LOW")
    else ("HOLD", "LOW", "MEDIUM") in
  let '(finalSignal, confidence, riskLevel) :=
    if (Condition rsiStrategy =s RSIExtremeHigh) && (Position bbStrategy =s AboveUpperBand)
    then ("STRONG SELL", "HIGH", "HIGH")
    else if (Condition rsiStrategy =s RSIExtremeLow) && (Position bbStrategy =s BelowLowerBand)
    then ("STRONG BUY", "HIGH", "LOW")
    else (finalSignal, confidence, riskLevel) in
  ok (mkCombinedTechnicalAnalysis smaSignal (BS_Signal bbStrategy) (RS_Signal rsiStrategy)
        finalSignal confidence riskLevel).

Definition UltimateAnalysis (dataset : list OHLCV) (smaPeriod bbPeriod rsiPeriod vmaPeriod : Z)
    (bbMultiplier : float64) : result UltimateMemecoinAnalysis :=
  let? technical :=
    ComprehensiveAnalysis dataset smaPeriod bbPeriod rsiPeriod bbMultiplier ClosePrice
    else UltimateMemecoinAnalysis_zero in
  let? volume := AnalyzeVolumeStrategy dataset vmaPeriod 5 else UltimateMemecoinAnalysis_zero in
  let volumeConfirm :=
    if ((CT_FinalSignal technical =s "STRONG BUY") || (CT_FinalSignal technical =s "BUY"))
       && ((VSt_Signal volume =s "strong_buy") || (VSt_Signal volume =s "buy")
           || (VSt_Signal volume =s "accumulate")) then true
    else if ((CT_FinalSignal technical =s "STRONG SELL") || (CT_FinalSignal technical =s "SELL"))
       && ((VSt_Signal volume =s "strong_sell") || (VSt_Signal volume =s "sell")
           || (VSt_Signal volume =s "distribute")) then true
    else if (CT_FinalSignal technical =s "WAIT") && flt (VolumeRatio volume) 1 then true
    else false in
  let rugPullRisk :=
    if (VSt_Signal volume =s "strong_sell")
       && (VS_Type (AccumulationSignal volume) =s "distribution")
       && (RSISignal technical =s "strong_sell") && fgt (VolumeRatio volume) 3 then "extreme"
    else if (VS_Type (AccumulationSignal volume) =s "distribution")
       && (CT_FinalSignal technical =s "STRONG SELL") then "high"
    else if (VSt_Signal volume =s "distribute")
       || (fgt (VolumeRatio volume) 2 && (CT_FinalSignal technical =s "SELL")) then "medium"
    else "low" in
  let finalSignal := CT_FinalSignal technical in
  let confidence := CT_Confidence technical in
  let riskLevel := CT_RiskLevel technical in
  let '(finalSignal, confidence) :=
    if volumeConfirm then
      if confidence =s "MEDIUM" then (finalSignal, "HIGH")
      else if confidence =s "LOW" then (finalSignal, "MEDIUM")
      else (finalSignal, confidence)
    else
      if confidence =s "HIGH" then
        if finalSignal =s "STRONG BUY" then ("BUY", "MEDIUM")
        else if finalSignal =s "STRONG SELL" then ("SELL", "MEDIUM")
        else (finalSignal, "MEDIUM")
      else if confidence =s "MEDIUM" then ("HOLD", "LOW")
      else (finalSignal, confidence) in
  let '(finalSignal, confidence, riskLevel) :=
    if VSt_Signal volume =s "low_volume_alert" then ("SUSPICIOUS", "LOW", "HIGH")
    else (finalSignal, confidence, riskLevel) in
  ok (mkUltimateMemecoinAnalysis technical volume finalSignal confidence riskLevel
        rugPullRisk volumeConfirm).

End Fusion.

(** ** Conversion of [[][]string] records *)

Section Conversion.

(** [strconv.ParseFloat(s, 64)] and [time.Parse(time.RFC3339, s)]; [None]
    when they return an error. *)
Variable ParseFloat : string -> option float64.
Variable ParseRFC3339 : string -> option Time.

Definition parseFloat64 (s : string) : option float64 := ParseFloat s.

(** [int64(x)]: the fraction is dropped. *)
Definition int64_of_float (x : float64) : Z := Z.quot (Qnum x) (Zpos (Qden x)).

(** [time.Unix(sec, 0)] *)
Definition Unix (sec : Z) : Time := sec.

Definition ConvertStringDataToOHLCV (stringData : list (list string)) : result (list OHLCV) :=
  if (len stringData =? 0)%Z then fail [] ErrEmptyDataset
  else
    match
      for_range_err 0 (len stringData) (fun i ohlcvData =>
        let candle := index [] stringData i in
        if (len candle <? 6)%Z then inr (ErrInvalidCandle i (len candle))
        else
          let timestamp :=
            match parseFloat64 (index "" candle 0) with
            | Some unixTime => Some (Unix (int64_of_float unixTime))
            | None => ParseRFC3339 (index "" candle 0)
            end in
          match timestamp with
          | None => inr (ErrInvalidTimestamp i (index "" candle 0))
          | Some timestamp =>
          match parseFloat64 (index "" candle 1) with
          | None => inr (ErrInvalidField "open price" i)
          | Some open =>
          match parseFloat64 (index "" candle 2) with
          | None => inr (ErrInvalidField "close price" i)
          | Some close =>
          match parseFloat64 (index "" candle 3) with
          | None => inr (ErrInvalidField "high price" i)
          | Some high =>
          match parseFloat64 (index "" candle 4) with
          | None => inr (ErrInvalidField "low price" i)
          | Some low =>
          match parseFloat64 (index "" candle 5) with
          | None => inr (ErrInvalidField "volume" i)
          | Some volume =>
              inl (ohlcvData ++ [mkOHLCV timestamp open high low close volume])
          end end end end end end) []
    with
    | inr e => fail [] e
    | inl ohlcvData => ok ohlcvData
    end.

End Conversion.

End Engines.

(** ** Specification-side definitions *)

(** The counter values of [n] rounds starting at [lo]. *)
Definition zseq (lo : Z) (n : nat) : list Z :=
  map (fun k => (lo + Z.of_nat k)%Z) (seq 0 n).






(** A record of strings and the bar it converts to: at least six fields,
    the four price fields parsing to the prices of the bar. *)
Definition parses_to (ParseFloat : string -> option float64)
    (candle : list string) (o : OHLCV) : Prop :=
  (6 <= len candle)%Z /\
  ParseFloat (index "" candle 1) = Some (Open o) /\
  ParseFloat (index "" candle 2) = Some (Close o) /\
  ParseFloat (index "" candle 3) = Some (High o) /\
  ParseFloat (index "" candle 4) = Some (Low o).

(** The gain and the loss that one price change contributes to the
    oscillator, as the loop over the changes of CalculateRSI splits it. *)
Definition gain_of (change : float64) : float64 := if fgt change 0 then change else 0.

Definition loss_of (change : float64) : float64 := if fgt change 0 then 0 else - change.

(** The point that CalculateRSI emits for bar [i] from a pair of averages. *)
Definition rsi_point (Format : Time -> string) (dataset : list OHLCV) (i : Z)
    (avgGain avgLoss : float64) : RSIResult :=
  let rs := avgGain / avgLoss in
  let rs := if feq avgLoss 0 then 100 else rs in
  let rsi := 100 - (100 / (1 + rs)) in
  mkRSIResult (Format (Timestamp (index OHLCV_zero dataset i))) rsi (getRSISignal rsi).

(** One step of the smoothing of an average of CalculateRSI. *)
Definition smooth (period : Z) (avg sample : float64) : float64 :=
  ((avg * float64_of_int (period - 1)) + sample) / float64_of_int period.

(** The run of CalculateRSI after the changes are split into gains and
    losses: the seed averages, the first point, and the smoothing loop. *)
Definition rsi_run (Format : Time -> string) (dataset : list OHLCV) (period : Z)
    (gains losses : list float64) : float64 * float64 * list RSIResult :=
  let avgGain := loop (Z.to_nat period) 0 (fun i sum => sum + index 0 gains i) 0
                 / float64_of_int period in
  let avgLoss := loop (Z.to_nat period) 0 (fun i sum => sum + index 0 losses i) 0
                 / float64_of_int period in
  loop (Z.to_nat (len gains - period)) period
    (fun i '(avgGain, avgLoss, results) =>
       let avgGain := smooth period avgGain (index 0 gains i) in
       let avgLoss := smooth period avgLoss (index 0 losses i) in
       (avgGain, avgLoss, results ++ [rsi_point Format dataset (i + 1) avgGain avgLoss]))
    (avgGain, avgLoss, [rsi_point Format dataset period avgGain avgLoss]).

(** A series whose selected price never falls from one bar to the next, and
    one whose selected price falls at every bar. *)
Definition never_falls (dataset : list OHLCV) (priceType : PriceType) : Prop :=
  forall k, (0 <= k < len dataset - 1)%Z ->
    ExtractPrice (index OHLCV_zero dataset k) priceType
    <= ExtractPrice (index OHLCV_zero dataset (k + 1)) priceType.


(** The oscillator conditions of AnalyzeRSIStrategy, each with the label of
    getRSISignal it is assigned for. *)
Definition condition_labels : list (RSICondition * string) :=
  [(RSIExtremeHigh, "extreme_overbought"); (RSIOverbought, "overbought");
   (RSIExtremeLow, "extreme_oversold"); (RSIOversold, "oversold");
   (RSINeutral, "neutral")].

(** The accumulators (OBV, VPT, ADL) of CalculateVolumeAnalysis before its
    point [k]: the seed, the volume of the first bar, before the first
    point, and the values of the previous point afterwards. *)
Definition accumulators_before (dataset : list OHLCV) (results : list VolumeResult) (k : Z)
  : float64 * float64 * float64 :=
  if (k =? 0)%Z
  then (Volume (hd OHLCV_zero dataset), Volume (hd OHLCV_zero dataset),
        Volume (hd OHLCV_zero dataset))
  else (OBV (index VolumeResult_zero results (k - 1)),
        VPT (index VolumeResult_zero results (k - 1)),
        ADL (index VolumeResult_zero results (k - 1))).

(** What one round of the loop of CalculateVolumeAnalysis makes of bar [i],
    from the accumulators [(obv, vpt, adl)]. *)
Definition volume_point (Format : Time -> string) (dataset : list OHLCV)
    (vmaPeriod vrocPeriod : Z) (i : Z) (before : float64 * float64 * float64)
  : VolumeResult :=
  let '(obv, vpt, adl) := before in
  let bar := index OHLCV_zero dataset i in
  let prev := index OHLCV_zero dataset (i - 1) in
  let back := index OHLCV_zero dataset (i - vrocPeriod) in
  mkVolumeResult (Format (Timestamp bar)) (Volume bar)
    (loop (Z.to_nat vmaPeriod) (i - vmaPeriod + 1)
       (fun j sum => sum + Volume (index OHLCV_zero dataset j)) 0
     / float64_of_int vmaPeriod)
    (if fgt (Close bar) (Close prev) then obv + Volume bar
     else if flt (Close bar) (Close prev) then obv - Volume bar else obv)
    (if fne (Close prev) 0
     then vpt + Volume bar * ((Close bar - Close prev) / Close prev) else vpt)
    (if fne (Volume back) 0
     then (Volume bar - Volume back) / Volume back * 100 else 0)
    (if fne (High bar) (Low bar)
     then adl + (Close bar - Low bar - (High bar - Close bar)) / (High bar - Low bar)
                * Volume bar
     else adl).

(** The parameters that CalculateVolumeAnalysis accepts for a series. *)
Definition volume_valid (dataset : list OHLCV) (vmaPeriod vrocPeriod : Z) : Prop :=
  (0 < vmaPeriod /\ 0 < vrocPeriod /\ Z.max vmaPeriod vrocPeriod < len dataset)%Z.

(** The (type, strength, confidence) triples of DetectVolumeBreakout. *)
Definition breakout_grades : list (string * string * float64) :=
  [("breakout", "extreme", 9 # 10); ("breakout", "strong", 8 # 10);
   ("breakout", "moderate", 6 # 10); ("normal", "weak", 3 # 10)].

(** The (signal, confidence, risk) triples of ComprehensiveAnalysis. *)
Definition technical_outcomes : list (string * string * string) :=
  [("STRONG BUY", "HIGH", "LOW"); ("BUY", "MEDIUM", "LOW");
   ("STRONG SELL", "HIGH", "HIGH"); ("SELL", "MEDIUM", "MEDIUM");
   ("WAIT", "HIGH", "LOW"); ("HOLD", "LOW", "MEDIUM")].

(** The outcomes of two fallible loops: states that are related, or the
    same error. *)
Definition related_outcomes {S T} (R : S -> T -> Prop) (a : S + error) (b : T + error) : Prop :=
  match a, b with
  | inl s, inl t => R s t
  | inr e, inr e' => e = e'
  | _, _ => False
  end.


(** ** Sample instances and series *)

(** A timestamp layout: the seconds in decimal. *)
Definition decimal_stamp (t : Time) : string := NilZero.string_of_int (Z.to_int t).

(** A square root on the rationals, exact on the squares of rationals. *)
Definition rational_sqrt (x : float64) : float64 :=
  inject_Z (Z.sqrt (Qnum x * Zpos (Qden x))) / inject_Z (Zpos (Qden x)).

(** A parser of decimal integers, and a timestamp parser that accepts
    nothing. *)
Definition parse_decimal (s : string) : option float64 :=
  option_map (fun d => inject_Z (Z.of_int d)) (NilZero.int_of_string s).

Definition no_rfc3339 (s : string) : option Time := None.

(** The band engine of [Bands] on the sample instances. *)
Definition sample_bands_engine :=
  Bands.AnalyzeBollingerStrategy decimal_stamp rational_sqrt.

(** The bar of hour [k] with all four prices at [price]. *)
Definition level_bar (k : Z) (price volume : float64) : OHLCV :=
  mkOHLCV (3600 * k)%Z price price price price volume.

Definition hours (n : nat) : list Z := zseq 1 n.

(** Six bars with the closes 1, 2, 3, 4, 5, 6. *)
Definition rising_series : list OHLCV :=
  map (fun k => level_bar k (inject_Z k) 1) (hours 6).

(** Three bars, fewer than a period of 5. *)
Definition short_series : list OHLCV := firstn 3 rising_series.

(** Twelve bars of close 10 and volume 7. *)
Definition level_series : list OHLCV :=
  map (fun k => level_bar k 10 7) (hours 12).

(** Twelve bars of close 10 and volume 7, each ranging from 5 to 10. *)
Definition ranged_series : list OHLCV :=
  map (fun k => mkOHLCV (3600 * k)%Z 10 10 5 10 7) (hours 12).

(** Fourteen bars at 1 and a last bar at 10; the mirror image falls from
    10 to 1. *)
Definition spike_series : list OHLCV :=
  map (fun k => level_bar k 1 1) (hours 14) ++ [level_bar 15 10 1].

Definition crash_series : list OHLCV :=
  map (fun k => level_bar k 10 1) (hours 14) ++ [level_bar 15 1 1].

(** Seven bars whose last volume, 5, is 5 times the mean 1 of the last five
    volumes 0, 0, 0, 0, 5. *)
Definition surge_series : list OHLCV :=
  [level_bar 1 1 1; level_bar 2 1 1; level_bar 3 1 0; level_bar 4 1 0;
   level_bar 5 1 0; level_bar 6 1 0; level_bar 7 1 5].

(** Fourteen bars of volume 10 and a last bar of volume 1. *)
Definition thin_series : list OHLCV :=
  map (fun k => level_bar k 1 10) (hours 14) ++ [level_bar 15 1 1].

(** Six records [timestamp, open, close, high, low, volume] with the closes
    1, 2, 3, 4, 5, 6. *)
Definition string_series : list (list string) :=
  [["3600"; "1"; "1"; "2"; "1"; "10"];
   ["7200"; "1"; "2"; "3"; "1"; "10"];
   ["10800"; "2"; "3"; "4"; "2"; "10"];
   ["14400"; "3"; "4"; "5"; "3"; "10"];
   ["18000"; "4"; "5"; "6"; "4"; "10"];
   ["21600"; "5"; "6"; "7"; "5"; "10"]].


Definition string_series_ohlcv : list OHLCV :=
  fst (ConvertStringDataToOHLCV parse_decimal no_rfc3339 string_series).



(** Twelve records [timestamp, open, close, high, low, volume] with all four
    prices of record [k] at [k], and the band strategy on them. *)
Definition rising_record (k : Z) : list string :=
  let price := NilZero.string_of_int (Z.to_int k) in
  [NilZero.string_of_int (Z.to_int (3600 * k)); price; price; price; price; "10"].

Definition long_string_series : list (list string) := map rising_record (hours 12).

Definition long_string_strategy : BollingerStrategy :=
  fst (Legacy.AnalyzeBollingerStrategy parse_decimal rational_sqrt long_string_series 3 1
         ClosePrice).

(** * Properties *)

(** ** Counted loops *)

Lemma zseq_S lo n : zseq lo (S n) = lo :: zseq (lo + 1) n.
Proof.
  unfold zseq. simpl. f_equal.
  - f_equal. lia.
  - rewrite <- seq_shift, map_map. apply map_ext. intros k. lia.
Qed.




(** A loop whose body appends one element per round builds the image of
    the counter values. *)
Lemma loop_append {A} (f : Z -> A) body n : forall lo acc,
  (forall i acc, (lo <= i < lo + Z.of_nat n)%Z -> body i acc = acc ++ [f i]) ->
  loop n lo body acc = acc ++ map f (zseq lo n).
Proof.
  induction n as [|n IH]; intros lo acc Hbody.
  - simpl. now rewrite app_nil_r.
  - rewrite zseq_S. simpl. rewrite Hbody by lia.
    rewrite IH by (intros; apply Hbody; lia).
    now rewrite <- app_assoc.
Qed.

(** An invariant kept by every round holds when the loop ends. *)
Lemma loop_invariant {S} (P : S -> Prop) body n : forall lo s,
  P s ->
  (forall i s, (lo <= i < lo + Z.of_nat n)%Z -> P s -> P (body i s)) ->
  P (loop n lo body s).
Proof.
  induction n as [|n IH]; intros lo s Hs Hbody; simpl; [assumption|].
  apply IH.
  - apply Hbody; [lia | assumption].
  - intros i s' Hi. apply Hbody. lia.
Qed.

(** A fallible loop none of whose rounds fails is the plain loop. *)
Lemma loop_err_total {S} (body : Z -> S -> S + error) body' n : forall lo s,
  (forall i s, (lo <= i < lo + Z.of_nat n)%Z -> body i s = inl (body' i s)) ->
  loop_err n lo body s = inl (loop n lo body' s).
Proof.
  induction n as [|n IH]; intros lo s Hbody; simpl; [reflexivity|].
  rewrite Hbody by lia. apply IH. intros; apply Hbody; lia.
Qed.

(** ** Slices *)

Lemma len_nonneg {A} (s : list A) : (0 <= len s)%Z.
Proof. unfold len. lia. Qed.

Lemma len_app {A} (s t : list A) : len (s ++ t) = (len s + len t)%Z.
Proof. unfold len. rewrite length_app. lia. Qed.

Lemma index_nth_error {A} (zero : A) s i :
  (0 <= i < len s)%Z ->
  nth_error s (Z.to_nat i) = Some (index zero s i).
Proof.
  unfold len, index. intros Hi.
  destruct (Z.ltb_spec i 0); [lia|].
  apply nth_error_nth'. lia.
Qed.


(** ** Moving average engine *)

(** A summation loop adds up the summands in counter order. *)
Lemma loop_sum (g : Z -> float64) n : forall lo s,
  loop n lo (fun j sum => sum + g j) s == s + fold_right Qplus 0 (map g (zseq lo n)).
Proof.
  induction n as [|n IH]; intros lo s.
  - simpl. ring.
  - rewrite zseq_S. simpl. rewrite IH. ring.
Qed.


(** ** Momentum oscillator engine *)


Lemma fgt_false x y : fgt x y = false -> x <= y.
Proof. unfold fgt. rewrite negb_false_iff. apply Qle_bool_iff. Qed.



Lemma Qdiv_nonneg x y : 0 <= x -> 0 < y -> 0 <= x / y.
Proof. intros Hx Hy. apply Qle_shift_div_l; lra. Qed.





(** ** Volume engine *)

Lemma fgt_eq x y : x == y -> fgt x y = false.
Proof.
  intros H. unfold fgt. rewrite negb_false_iff. apply Qle_bool_iff. lra.
Qed.

Lemma flt_eq x y : x == y -> flt x y = false.
Proof.
  intros H. unfold flt. rewrite negb_false_iff. apply Qle_bool_iff. lra.
Qed.

Lemma zero_div x y : x == 0 -> x / y == 0.
Proof. intros H. unfold Qdiv. rewrite H. ring. Qed.

Lemma index_map {A B} (f : A -> B) (za : A) (zb : B) s i :
  (0 <= i < len s)%Z -> index zb (map f s) i = f (index za s i).
Proof.
  intros Hi. unfold index. destruct (Z.ltb_spec i 0); [lia|].
  rewrite (nth_indep _ zb (f za)) by (rewrite length_map; unfold len in Hi; lia).
  apply map_nth.
Qed.

Lemma index_In {A} (zero : A) s i : (0 <= i < len s)%Z -> In (index zero s i) s.
Proof.
  intros Hi. unfold index. destruct (Z.ltb_spec i 0); [lia|].
  apply nth_In. unfold len in Hi. lia.
Qed.

(** C6, as the code has it. On a series of constant volume and constant
    close, every emitted point has OBV and VPT at the seed (the volume of
    the first bar) and VROC at 0; ADL is at the seed as well when the close
    of every bar lies midway between its low and its high, as it does on a
    bar with high = low. *)
Theorem CalculateVolumeAnalysis_flat_series :
  forall (Format : Time -> string) (dataset : list OHLCV) (vmaPeriod vrocPeriod : Z)
         (c v : float64),
    (forall b, In b dataset -> Close b == c /\ Volume b == v) ->
    forall r, In r (fst (CalculateVolumeAnalysis Format dataset vmaPeriod vrocPeriod)) ->
      let seed := Volume (hd OHLCV_zero dataset) in
      OBV r == seed /\ VPT r == seed /\ VROC r == 0 /\
      ((forall b, In b dataset -> Close b - Low b == High b - Close b) -> ADL r == seed).
Proof.
  intros Format dataset vmaPeriod vrocPeriod c v Hflat r.
  unfold CalculateVolumeAnalysis.
  destruct (Z.eqb_spec (len dataset) 0) as [|Hlen]; [intros []|].
  destruct (Z.leb_spec vmaPeriod 0); [intros []|].
  destruct (Z.leb_spec vrocPeriod 0); [intros []|]. simpl orb. cbv iota.
  set (maxPeriod := if (vrocPeriod >? vmaPeriod)%Z then vrocPeriod else vmaPeriod).
  assert (HmaxPeriod : (1 <= maxPeriod /\ vrocPeriod <= maxPeriod)%Z).
  { subst maxPeriod. destruct (Z.gtb_spec vrocPeriod vmaPeriod); lia. }
  destruct (Z.leb_spec (len dataset) maxPeriod); [intros []|].
  assert (Hseed : index 0 (map Volume dataset) 0 = Volume (hd OHLCV_zero dataset)).
  { destruct dataset; reflexivity. }
  rewrite Hseed. set (seed := Volume (hd OHLCV_zero dataset)).
  set (good := fun r : VolumeResult =>
    OBV r == seed /\ VPT r == seed /\ VROC r == 0 /\
    ((forall b, In b dataset -> Close b - Low b == High b - Close b) -> ADL r == seed)).
  destruct (for_range maxPeriod (len dataset) _ _) as [[[results obv] vpt] adl] eqn:Eloop.
  simpl fst. intros Hr.
  enough (Hall : Forall good results) by (rewrite Forall_forall in Hall; exact (Hall r Hr)).
  change results with (fst (fst (fst (results, obv, vpt, adl)))).
  rewrite <- Eloop. unfold for_range.
  set (inv := fun s : list VolumeResult * float64 * float64 * float64 =>
    Forall good (fst (fst (fst s))) /\ snd (fst (fst s)) == seed /\ snd (fst s) == seed /\
    ((forall b, In b dataset -> Close b - Low b == High b - Close b) -> snd s == seed)).
  match goal with
  | |- Forall good (fst (fst (fst ?X))) => enough (HX : inv X) by exact (proj1 HX)
  end.
  apply loop_invariant.
  - unfold inv. simpl. repeat split; try reflexivity. constructor.
  - intros i [[[rs o] p] a] Hi (Hrs & Ho & Hp & Ha). simpl in Hrs, Ho, Hp, Ha.
    assert (Hi0 : (0 <= i < len dataset)%Z) by lia.
    assert (Hi1 : (0 <= i - 1 < len dataset)%Z) by lia.
    assert (Hik : (0 <= i - vrocPeriod < len dataset)%Z) by lia.
    rewrite !(index_map Close OHLCV_zero), !(index_map Volume OHLCV_zero),
      !(index_map High OHLCV_zero), !(index_map Low OHLCV_zero) by assumption.
    destruct (Hflat _ (index_In OHLCV_zero dataset i Hi0)) as [Hci Hvi].
    destruct (Hflat _ (index_In OHLCV_zero dataset (i - 1) Hi1)) as [Hci1 _].
    destruct (Hflat _ (index_In OHLCV_zero dataset (i - vrocPeriod) Hik)) as [_ Hvk].
    set (bi := index OHLCV_zero dataset i) in *.
    set (bi1 := index OHLCV_zero dataset (i - 1)) in *.
    set (bk := index OHLCV_zero dataset (i - vrocPeriod)) in *.
    assert (Hobv :
      (if (i >? 0)%Z
       then if fgt (Close bi) (Close bi1) then o + Volume bi
            else if flt (Close bi) (Close bi1) then o - Volume bi else o
       else o) == seed).
    { rewrite fgt_eq, flt_eq by (rewrite Hci, Hci1; reflexivity).
      destruct (i >? 0)%Z; assumption. }
    assert (Hvpt :
      (if (i >? 0)%Z && fne (Close bi1) 0
       then p + Volume bi * ((Close bi - Close bi1) / Close bi1)
       else p) == seed).
    { destruct ((i >? 0)%Z && fne (Close bi1) 0); [|assumption].
      rewrite (zero_div (Close bi - Close bi1)) by (rewrite Hci, Hci1; ring).
      rewrite <- Hp. ring. }
    assert (Hvroc :
      (if (i >=? vrocPeriod)%Z && fne (Volume bk) 0
       then (Volume bi - Volume bk) / Volume bk * 100
       else 0) == 0).
    { destruct ((i >=? vrocPeriod)%Z && fne (Volume bk) 0); [|reflexivity].
      rewrite (zero_div (Volume bi - Volume bk)) by (rewrite Hvi, Hvk; ring).
      ring. }
    assert (Hadl :
      (forall b, In b dataset -> Close b - Low b == High b - Close b) ->
      (if fne (High bi) (Low bi)
       then a + (Close bi - Low bi - (High bi - Close bi)) / (High bi - Low bi) * Volume bi
       else a) == seed).
    { intros Hmid. specialize (Ha Hmid).
      destruct (fne (High bi) (Low bi)); [|assumption].
      rewrite (zero_div (Close bi - Low bi - (High bi - Close bi)))
        by (rewrite (Hmid bi (index_In OHLCV_zero dataset i Hi0)); ring).
      rewrite <- Ha. ring. }
    unfold inv. cbv zeta. simpl fst. simpl snd. repeat split; try assumption.
    apply Forall_app; split; [assumption|].
    constructor; [|constructor].
    unfold good. simpl. repeat split; assumption.
Qed.

(** C3, as the code has it. When the latest volume is 5 times the latest
    volume moving average (which is then not 0), DetectVolumeBreakout with
    multiplier 2.0 reports a breakout of strength "strong" with confidence
    0.8: the ratio 5 reaches 2 x 2.0 but not 3 x 2.0. *)
Theorem DetectVolumeBreakout_ratio_five :
  forall (Format : Time -> string) (dataset : list OHLCV) (vmaPeriod : Z)
         (latest : VolumeResult),
    GetLatestVolumeAnalysis Format dataset vmaPeriod 5 = (latest, None) ->
    VR_Volume latest == 5 * VMA latest ->
    ~ VMA latest == 0 ->
    exists trend,
      DetectVolumeBreakout Format dataset vmaPeriod 2 =
      (mkVolumeSignal "breakout" "strong" trend (8 # 10), None).
Proof.
  intros Format dataset vmaPeriod latest Hlatest Hfive Hvma.
  unfold DetectVolumeBreakout, try. rewrite Hlatest. simpl fst. simpl snd. cbv iota beta.
  assert (Hratio : VR_Volume latest / VMA latest == 5)
    by (rewrite Hfive; field; assumption).
  assert (E3 : fge (VR_Volume latest / VMA latest) (2 * 3) = false)
    by (unfold fge; rewrite Hratio; reflexivity).
  assert (E2 : fge (VR_Volume latest / VMA latest) (2 * 2) = true)
    by (unfold fge; rewrite Hratio; reflexivity).
  assert (E1 : fge (VR_Volume latest / VMA latest) 2 = true)
    by (unfold fge; rewrite Hratio; reflexivity).
  rewrite E3, E2, E1. cbv iota beta. eexists. reflexivity.
Qed.

(** ** Signal fusion layer *)

(** C5. Whenever the oscillator condition is extreme_high and the band
    position is above_upper, ComprehensiveAnalysis ends in STRONG SELL with
    confidence HIGH and risk HIGH, whatever the votes; extreme_low with
    below_lower ends in STRONG BUY, HIGH, LOW. *)
Theorem ComprehensiveAnalysis_extreme_override :
  forall (Format : Time -> string)
         (AnalyzeBollingerStrategy :
            list OHLCV -> Z -> float64 -> PriceType -> result BollingerStrategy)
         (dataset : list OHLCV) (smaPeriod bbPeriod rsiPeriod : Z)
         (bbMultiplier : float64) (priceType : PriceType)
         (r : CombinedTechnicalAnalysis),
    ComprehensiveAnalysis Format AnalyzeBollingerStrategy dataset
      smaPeriod bbPeriod rsiPeriod bbMultiplier priceType = (r, None) ->
    let rsiStrategy := fst (AnalyzeRSIStrategy Format dataset rsiPeriod priceType) in
    let bbStrategy := fst (AnalyzeBollingerStrategy dataset bbPeriod bbMultiplier priceType) in
    (Condition rsiStrategy = RSIExtremeHigh -> Position bbStrategy = AboveUpperBand ->
     CT_FinalSignal r = "STRONG SELL" /\ CT_Confidence r = "HIGH" /\ CT_RiskLevel r = "HIGH") /\
    (Condition rsiStrategy = RSIExtremeLow -> Position bbStrategy = BelowLowerBand ->
     CT_FinalSignal r = "STRONG BUY" /\ CT_Confidence r = "HIGH" /\ CT_RiskLevel r = "LOW").
Proof.
  intros Format ABS dataset smaPeriod bbPeriod rsiPeriod bbMultiplier priceType r.
  unfold ComprehensiveAnalysis. cbv zeta.
  destruct (fold_left _ _ _) as [bullishCount bearishCount].
  match goal with
  | |- context [if (bullishCount >=? 3)%Z then ?a else ?b] =>
      destruct (if (bullishCount >=? 3)%Z then a else b) as [[finalSignal confidence] riskLevel]
  end.
  split; intros Hcond Hpos; rewrite Hcond, Hpos in H; simpl in H;
    injection H as <-; simpl; auto.
Qed.

(** C9. Whenever UltimateAnalysis succeeds with the volume signal
    low_volume_alert, its final signal is SUSPICIOUS, its confidence LOW and
    its risk level HIGH. *)
Theorem UltimateAnalysis_low_volume_alert :
  forall (Format : Time -> string)
         (AnalyzeBollingerStrategy :
            list OHLCV -> Z -> float64 -> PriceType -> result BollingerStrategy)
         (dataset : list OHLCV) (smaPeriod bbPeriod rsiPeriod vmaPeriod : Z)
         (bbMultiplier : float64) (u : UltimateMemecoinAnalysis),
    UltimateAnalysis Format AnalyzeBollingerStrategy dataset
      smaPeriod bbPeriod rsiPeriod vmaPeriod bbMultiplier = (u, None) ->
    VSt_Signal (UM_Volume u) = "low_volume_alert" ->
    FinalSignal u = "SUSPICIOUS" /\ Confidence u = "LOW" /\ RiskLevel u = "HIGH".
Proof.
  intros Format ABS dataset smaPeriod bbPeriod rsiPeriod vmaPeriod bbMultiplier u.
  unfold UltimateAnalysis, try.
  destruct (ComprehensiveAnalysis _ _ _ _ _ _ _ _) as [technical [e|]]; [discriminate|].
  destruct (AnalyzeVolumeStrategy _ _ _ _) as [volume [e|]]; [discriminate|].
  simpl fst. simpl snd. cbv iota beta zeta.
  match goal with
  | |- context [let '(f, c) := ?X in _] => destruct X as [finalSignal confidence]
  end.
  destruct (VSt_Signal volume =s "low_volume_alert") eqn:Ealert;
    intros [= <-]; simpl; intros Hsig.
  - auto.
  - rewrite Hsig in Ealert. discriminate.
Qed.

(** ** Volatility band engine *)

(** An invariant that follows the counter of a fallible loop. *)
Lemma loop_err_invariant_at {S} (P : Z -> S -> Prop) (body : Z -> S -> S + error) n :
  forall lo s s',
  P lo s ->
  (forall i s s', (lo <= i < lo + Z.of_nat n)%Z -> P i s -> body i s = inl s' -> P (i + 1)%Z s') ->
  loop_err n lo body s = inl s' -> P (lo + Z.of_nat n)%Z s'.
Proof.
  induction n as [|n IH]; intros lo s s' Hs Hbody; simpl loop_err.
  - intros [= <-]. now replace (lo + Z.of_nat 0)%Z with lo by lia.
  - destruct (body lo s) as [s1|e] eqn:E; [|discriminate].
    intros Hloop.
    replace (lo + Z.of_nat (Datatypes.S n))%Z with (lo + 1 + Z.of_nat n)%Z by lia.
    apply (IH (lo + 1)%Z s1 s'); [| | exact Hloop].
    + apply (Hbody lo s s1); [lia | exact Hs | exact E].
    + intros i t t' Hi. apply Hbody. lia.
Qed.

Lemma index_app_l {A} (zero : A) s t i :
  (0 <= i < len s)%Z -> index zero (s ++ t) i = index zero s i.
Proof.
  intros Hi. unfold index. destruct (Z.ltb_spec i 0); [lia|].
  apply app_nth1. unfold len in Hi. lia.
Qed.

Lemma index_app_last {A} (zero : A) s x :
  index zero (s ++ [x]) (len s) = x.
Proof.
  unfold index, len. destruct (Z.ltb_spec (Z.of_nat (List.length s)) 0); [lia|].
  rewrite Nat2Z.id, app_nth2 by lia. now rewrite Nat.sub_diag.
Qed.







(** ** The two variants of the moving average *)

Lemma extractPrice_parses_to ParseFloat candle o priceType :
  parses_to ParseFloat candle o ->
  Legacy.extractPrice ParseFloat candle priceType = (ExtractPrice o priceType, None).
Proof.
  intros (Hlen & Hopen & Hclose & Hhigh & Hlow).
  unfold Legacy.extractPrice.
  destruct (Z.ltb_spec (len candle) 6); [lia|].
  rewrite Hopen, Hclose, Hhigh, Hlow.
  destruct priceType as [|p|p]; try reflexivity.
  repeat (destruct p as [p|p|]; try reflexivity).
Qed.

(** A successful conversion keeps the length and converts record by record. *)
Lemma ConvertStringDataToOHLCV_parses ParseFloat ParseRFC3339 stringData ohlcv :
  ConvertStringDataToOHLCV ParseFloat ParseRFC3339 stringData = (ohlcv, None) ->
  len ohlcv = len stringData /\
  forall j, (0 <= j < len stringData)%Z ->
    parses_to ParseFloat (index [] stringData j) (index OHLCV_zero ohlcv j).
Proof.
  unfold ConvertStringDataToOHLCV.
  destruct (len stringData =? 0)%Z; [discriminate|].
  destruct (for_range_err _ _ _ _) as [data|e] eqn:Eloop; [|discriminate].
  intros [= ->]. unfold for_range_err in Eloop.
  apply (loop_err_invariant_at
           (fun i (acc : list OHLCV) =>
              len acc = i /\
              forall j, (0 <= j < i)%Z ->
                parses_to ParseFloat (index [] stringData j) (index OHLCV_zero acc j)))
    in Eloop.
  - pose proof (len_nonneg stringData).
    replace (0 + Z.of_nat (Z.to_nat (len stringData - 0)))%Z with (len stringData) in Eloop
      by lia.
    exact Eloop.
  - split; [reflexivity|]. intros j Hj. lia.
  - clear Eloop. intros i acc acc' Hi [Hlen Hacc]. unfold parseFloat64.
    destruct (Z.ltb_spec (len (index [] stringData i)) 6) as [|Hsix]; [discriminate|].
    destruct (match ParseFloat (index "" (index [] stringData i) 0) with
              | Some unixTime => Some (Unix (int64_of_float unixTime))
              | None => ParseRFC3339 (index "" (index [] stringData i) 0)
              end) as [timestamp|]; [|discriminate].
    destruct (ParseFloat (index "" (index [] stringData i) 1)) as [open|] eqn:Eopen;
      [|discriminate].
    destruct (ParseFloat (index "" (index [] stringData i) 2)) as [close|] eqn:Eclose;
      [|discriminate].
    destruct (ParseFloat (index "" (index [] stringData i) 3)) as [high|] eqn:Ehigh;
      [|discriminate].
    destruct (ParseFloat (index "" (index [] stringData i) 4)) as [low|] eqn:Elow;
      [|discriminate].
    destruct (ParseFloat (index "" (index [] stringData i) 5)) as [volume|];
      [|discriminate].
    intros [= <-]. split.
    + rewrite len_app. unfold len at 2. simpl. lia.
    + intros j Hj. destruct (Z.eq_dec j (len acc)) as [->|Hne].
      * rewrite index_app_last. rewrite Hlen.
        unfold parses_to. simpl. repeat split; assumption.
      * rewrite index_app_l by lia. apply Hacc. lia.
Qed.

(** C10. On a dataset of strings that ConvertStringDataToOHLCV converts,
    the [[][]string] CalculateSMA and the [[]OHLCV] CalculateSMA on the
    converted dataset fail together, and otherwise return lists of the same
    length with the same values, point by point. *)
Theorem CalculateSMA_variants_agree :
  forall (ParseFloat : string -> option float64) (ParseRFC3339 : string -> option Time)
         (Format : Time -> string)
         (stringData : list (list string)) (ohlcv : list OHLCV),
    ConvertStringDataToOHLCV ParseFloat ParseRFC3339 stringData = (ohlcv, None) ->
    forall (period : Z) (priceType : PriceType),
      let legacy := Legacy.CalculateSMA ParseFloat stringData period priceType in
      let current := CalculateSMA Format ohlcv period priceType in
      snd legacy = snd current /\
      map SMA_Value (fst legacy) = map SMA_Value (fst current).
Proof.
  intros ParseFloat ParseRFC3339 Format stringData ohlcv Hconv period priceType.
  apply ConvertStringDataToOHLCV_parses in Hconv. destruct Hconv as [Hlen Hparses].
  unfold Legacy.CalculateSMA, CalculateSMA. rewrite Hlen. cbv zeta.
  destruct (len stringData =? 0)%Z; [split; reflexivity|].
  destruct (Z.leb_spec period 0); [split; reflexivity|].
  destruct (Z.gtb_spec period (len stringData)); [split; reflexivity|].
  set (value_at := fun i : Z =>
    for_range (i - period + 1) (i + 1)
      (fun j sum => sum + ExtractPrice (index OHLCV_zero ohlcv j) priceType) 0
    / float64_of_int period).
  set (stamps := zseq (period - 1) (Z.to_nat (len stringData - (period - 1)))).
  set (old_results := for_range_err (period - 1) _ _ _).
  set (new_results := for_range (period - 1) _ _ _).
  assert (Hold : old_results =
            inl (map (fun i => mkSMAResult (index "" (index [] stringData i) 0) (value_at i))
                   stamps)).
  { subst old_results. unfold for_range_err at 1.
    rewrite (loop_err_total _
               (fun i results =>
                  results ++ [mkSMAResult (index "" (index [] stringData i) 0) (value_at i)])).
    - now rewrite (loop_append
                     (fun i => mkSMAResult (index "" (index [] stringData i) 0) (value_at i)))
        by (intros; reflexivity).
    - intros i results Hi. unfold for_range_err.
      rewrite (loop_err_total _
                 (fun j sum => sum + ExtractPrice (index OHLCV_zero ohlcv j) priceType)).
      + reflexivity.
      + intros j sum Hj.
        rewrite (extractPrice_parses_to ParseFloat _ (index OHLCV_zero ohlcv j))
          by (apply Hparses; lia).
        reflexivity. }
  assert (Hnew : new_results =
            map (fun i => mkSMAResult (Format (Timestamp (index OHLCV_zero ohlcv i)))
                            (value_at i)) stamps).
  { subst new_results. unfold for_range at 1.
    now rewrite (loop_append
                   (fun i => mkSMAResult (Format (Timestamp (index OHLCV_zero ohlcv i)))
                               (value_at i)))
      by (intros; reflexivity). }
  rewrite Hold, Hnew. split; [reflexivity|].
  simpl fst. rewrite !map_map. reflexivity.
Qed.

(** ** The sample series *)


(** ComprehensiveAnalysis returns a nil error on every input: each engine
    error is dropped with [_]. *)
Lemma ComprehensiveAnalysis_never_fails :
  forall Format AnalyzeBollingerStrategy dataset smaPeriod bbPeriod rsiPeriod
         bbMultiplier priceType,
    snd (ComprehensiveAnalysis Format AnalyzeBollingerStrategy dataset
           smaPeriod bbPeriod rsiPeriod bbMultiplier priceType) = None.
Proof.
  intros. unfold ComprehensiveAnalysis. cbv zeta.
  destruct (fold_left _ _ _) as [bullishCount bearishCount].
  match goal with
  | |- context [if (bullishCount >=? 3)%Z then ?a else ?b] =>
      destruct (if (bullishCount >=? 3)%Z then a else b) as [[finalSignal confidence] riskLevel]
  end.
  repeat match goal with
         | |- context [if ?c then _ else _] => destruct c
         end; reflexivity.
Qed.

(** C1, at the inputs where the code departs from it. On the three-bar
    series with every period at 5, the moving average, band and oscillator
    engines all return an error, and ComprehensiveAnalysis returns a nil
    error with a result fused from their zero values (a bearish vote, HOLD).
    On the twelve-bar series with the three technical periods at 0 the
    moving average engine returns an error, and UltimateAnalysis returns a
    nil error with a fused HOLD. *)
Theorem fusion_drops_engine_errors :
  snd (IsPriceAboveSMA decimal_stamp short_series 5 ClosePrice)
    = Some (ErrPeriodTooLarge 5 3) /\
  snd (sample_bands_engine short_series 5 2 ClosePrice) = Some (ErrPeriodTooLarge 5 3) /\
  snd (AnalyzeRSIStrategy decimal_stamp short_series 5 ClosePrice)
    = Some (ErrPeriodNotLess 5 3) /\
  ComprehensiveAnalysis decimal_stamp sample_bands_engine short_series 5 5 5 2 ClosePrice
    = (mkCombinedTechnicalAnalysis "bearish" "" "" "HOLD" "LOW" "MEDIUM", None) /\
  snd (IsPriceAboveSMA decimal_stamp level_series 0 ClosePrice) = Some ErrPeriodNotPositive /\
  snd (UltimateAnalysis decimal_stamp sample_bands_engine level_series 0 0 0 5 2) = None /\
  Technical (fst (UltimateAnalysis decimal_stamp sample_bands_engine level_series 0 0 0 5 2))
    = mkCombinedTechnicalAnalysis "bearish" "" "" "HOLD" "LOW" "MEDIUM" /\
  FinalSignal (fst (UltimateAnalysis decimal_stamp sample_bands_engine level_series 0 0 0 5 2))
    = "HOLD".
Proof. repeat split; vm_compute; reflexivity. Qed.

(** C2, as the code has it. On a six-bar series with the closes 1, 2, 3, 4,
    5, 6 and period 3, the first window has no loss, the sentinel RS = 100
    applies, and the first value CalculateRSI emits is 100 - 100/101, that
    is 10000/101 (about 99.0099). *)
Theorem CalculateRSI_rising_first_value :
  forall (Format : Time -> string) (dataset : list OHLCV),
    map Close dataset = [1; 2; 3; 4; 5; 6] ->
    exists first rest,
      CalculateRSI Format dataset 3 ClosePrice = (first :: rest, None) /\
      RSI_Value first == 10000 # 101.
Proof.
  intros Format dataset Hcloses.
  do 6 (destruct dataset as [|[? ? ? ? ?c ?] dataset]; [discriminate|]).
  destruct dataset; [|discriminate].
  simpl in Hcloses. injection Hcloses as -> -> -> -> -> ->.
  eexists. eexists. split.
  - vm_compute. reflexivity.
  - vm_compute. reflexivity.
Qed.

Lemma CalculateRSI_rising_first_value_witness :
  exists first rest,
    CalculateRSI decimal_stamp rising_series 3 ClosePrice = (first :: rest, None) /\
    RSI_Value first == 10000 # 101.
Proof.
  apply (CalculateRSI_rising_first_value decimal_stamp rising_series).
  vm_compute. reflexivity.
Defined.

(** On the scenario of C2 the first emitted value is not 100. *)
Lemma CalculateRSI_rising_first_value_not_100 :
  map Close rising_series = [1; 2; 3; 4; 5; 6] /\
  ~ RSI_Value (hd RSIResult_zero (fst (CalculateRSI decimal_stamp rising_series 3 ClosePrice)))
    == 100.
Proof.
  split; [vm_compute; reflexivity|].
  vm_compute. discriminate.
Qed.

Lemma DetectVolumeBreakout_ratio_five_witness :
  exists trend,
    DetectVolumeBreakout decimal_stamp surge_series 5 2 =
    (mkVolumeSignal "breakout" "strong" trend (8 # 10), None).
Proof.
  apply (DetectVolumeBreakout_ratio_five decimal_stamp surge_series 5
           (fst (GetLatestVolumeAnalysis decimal_stamp surge_series 5 5))).
  - vm_compute. reflexivity.
  - vm_compute. reflexivity.
  - vm_compute. discriminate.
Defined.

(** On a series whose latest volume is 5 times the latest volume moving
    average, DetectVolumeBreakout with multiplier 2.0 does not report
    "extreme" with confidence 0.9. *)
Lemma DetectVolumeBreakout_ratio_five_not_extreme :
  VR_Volume (fst (GetLatestVolumeAnalysis decimal_stamp surge_series 5 5))
    == 5 * VMA (fst (GetLatestVolumeAnalysis decimal_stamp surge_series 5 5)) /\
  ~ (VS_Strength (fst (DetectVolumeBreakout decimal_stamp surge_series 5 2)) = "extreme" /\
     VS_Confidence (fst (DetectVolumeBreakout decimal_stamp surge_series 5 2)) == 9 # 10).
Proof.
  split; [vm_compute; reflexivity|].
  intros [Hstrength _]. vm_compute in Hstrength. discriminate.
Qed.


Lemma ComprehensiveAnalysis_extreme_override_witness :
  (CT_FinalSignal
     (fst (ComprehensiveAnalysis decimal_stamp sample_bands_engine spike_series
             5 5 5 1 ClosePrice)) = "STRONG SELL" /\
   CT_Confidence
     (fst (ComprehensiveAnalysis decimal_stamp sample_bands_engine spike_series
             5 5 5 1 ClosePrice)) = "HIGH" /\
   CT_RiskLevel
     (fst (ComprehensiveAnalysis decimal_stamp sample_bands_engine spike_series
             5 5 5 1 ClosePrice)) = "HIGH") /\
  (CT_FinalSignal
     (fst (ComprehensiveAnalysis decimal_stamp sample_bands_engine crash_series
             5 5 5 1 ClosePrice)) = "STRONG BUY" /\
   CT_Confidence
     (fst (ComprehensiveAnalysis decimal_stamp sample_bands_engine crash_series
             5 5 5 1 ClosePrice)) = "HIGH" /\
   CT_RiskLevel
     (fst (ComprehensiveAnalysis decimal_stamp sample_bands_engine crash_series
             5 5 5 1 ClosePrice)) = "LOW").
Proof.
  split.
  - apply (proj1 (ComprehensiveAnalysis_extreme_override decimal_stamp sample_bands_engine
                    spike_series 5 5 5 1 ClosePrice _ ltac:(vm_compute; reflexivity)));
      vm_compute; reflexivity.
  - apply (proj2 (ComprehensiveAnalysis_extreme_override decimal_stamp sample_bands_engine
                    crash_series 5 5 5 1 ClosePrice _ ltac:(vm_compute; reflexivity)));
      vm_compute; reflexivity.
Defined.

Lemma level_series_flat :
  forall b, In b level_series ->
    (Close b == 10 /\ Volume b == 7) /\ Close b - Low b == High b - Close b.
Proof.
  intros b Hb. vm_compute in Hb.
  repeat (destruct Hb as [<-|Hb]; [vm_compute; repeat split|]).
  contradiction.
Qed.

Lemma CalculateVolumeAnalysis_flat_series_witness :
  OBV (hd VolumeResult_zero (fst (CalculateVolumeAnalysis decimal_stamp level_series 3 2))) == 7 /\
  VPT (hd VolumeResult_zero (fst (CalculateVolumeAnalysis decimal_stamp level_series 3 2))) == 7 /\
  VROC (hd VolumeResult_zero (fst (CalculateVolumeAnalysis decimal_stamp level_series 3 2))) == 0 /\
  ADL (hd VolumeResult_zero (fst (CalculateVolumeAnalysis decimal_stamp level_series 3 2))) == 7.
Proof.
  destruct (CalculateVolumeAnalysis_flat_series decimal_stamp level_series 3 2 10 7
              (fun b Hb => proj1 (level_series_flat b Hb))
              (hd VolumeResult_zero (fst (CalculateVolumeAnalysis decimal_stamp level_series 3 2)))
              ltac:(vm_compute; left; reflexivity))
    as (Hobv & Hvpt & Hvroc & Hadl).
  exact (conj Hobv (conj Hvpt (conj Hvroc
           (Hadl (fun b Hb => proj2 (level_series_flat b Hb)))))).
Defined.

(** On a series of constant volume and constant close whose bars range from
    5 to 10, the first emitted ADL has left the seed. *)
Lemma CalculateVolumeAnalysis_flat_series_ADL_drifts :
  Forall (fun b => Close b == 10 /\ Volume b == 7) ranged_series /\
  ~ ADL (hd VolumeResult_zero (fst (CalculateVolumeAnalysis decimal_stamp ranged_series 3 2)))
    == Volume (hd OHLCV_zero ranged_series).
Proof.
  split.
  - vm_compute. repeat constructor.
  - vm_compute. discriminate.
Qed.


Lemma UltimateAnalysis_low_volume_alert_witness :
  FinalSignal
    (fst (UltimateAnalysis decimal_stamp sample_bands_engine thin_series 5 5 5 5 2))
    = "SUSPICIOUS" /\
  Confidence
    (fst (UltimateAnalysis decimal_stamp sample_bands_engine thin_series 5 5 5 5 2))
    = "LOW" /\
  RiskLevel
    (fst (UltimateAnalysis decimal_stamp sample_bands_engine thin_series 5 5 5 5 2))
    = "HIGH".
Proof.
  apply (UltimateAnalysis_low_volume_alert decimal_stamp sample_bands_engine
           thin_series 5 5 5 5 2).
  - vm_compute. reflexivity.
  - vm_compute. reflexivity.
Defined.

Lemma CalculateSMA_variants_agree_witness :
  snd (Legacy.CalculateSMA parse_decimal string_series 3 ClosePrice)
    = snd (CalculateSMA decimal_stamp string_series_ohlcv 3 ClosePrice) /\
  map SMA_Value (fst (Legacy.CalculateSMA parse_decimal string_series 3 ClosePrice))
    = map SMA_Value (fst (CalculateSMA decimal_stamp string_series_ohlcv 3 ClosePrice)).
Proof.
  apply (CalculateSMA_variants_agree parse_decimal no_rfc3339 decimal_stamp
           string_series string_series_ohlcv).
  vm_compute. reflexivity.
Defined.

(** * Further properties of the engines *)

(** ** Price extraction *)


(** ** Moving average: results in closed form *)


Lemma CalculateSMA_error_cases Format dataset period priceType :
  snd (CalculateSMA Format dataset period priceType) = None <->
  (len dataset <> 0%Z /\ (1 <= period <= len dataset)%Z).
Proof.
  unfold CalculateSMA.
  destruct (Z.eqb_spec (len dataset) 0); [simpl; split; [discriminate | tauto]|].
  destruct (Z.leb_spec period 0); [simpl; split; [discriminate | lia]|].
  destruct (Z.gtb_spec period (len dataset)); [simpl; split; [discriminate | lia]|].
  simpl. split; [intros _; split; [assumption | lia] | reflexivity].
Qed.








(** X4. SMACrossover succeeds exactly when
    [1 <= fastPeriod < slowPeriod < len(dataset)], and it then reports
    bullish_crossover, bearish_crossover or no_signal. *)
Theorem SMACrossover_succeeds_iff :
  forall (Format : Time -> string) (dataset : list OHLCV) (fastPeriod slowPeriod : Z)
         (priceType : PriceType),
    (snd (SMACrossover Format dataset fastPeriod slowPeriod priceType) = None <->
     (1 <= fastPeriod < slowPeriod /\ slowPeriod < len dataset)%Z) /\
    (snd (SMACrossover Format dataset fastPeriod slowPeriod priceType) = None ->
     In (fst (SMACrossover Format dataset fastPeriod slowPeriod priceType))
        ["bullish_crossover"; "bearish_crossover"; "no_signal"]).
Proof.
  intros Format dataset fastPeriod slowPeriod priceType.
  unfold SMACrossover.
  destruct (Z.geb_spec fastPeriod slowPeriod).
  { simpl. split; [split; [discriminate | lia] | discriminate]. }
  destruct (Z.ltb_spec (len dataset) (slowPeriod + 1)).
  { simpl. split; [split; [discriminate | lia] | discriminate]. }
  unfold try.
  destruct (snd (CalculateSMA Format dataset fastPeriod priceType)) as [e|] eqn:Efast.
  { simpl. split; [split; [discriminate|] | discriminate].
    intros Hv. pose proof (proj2 (CalculateSMA_error_cases Format dataset fastPeriod priceType)
                             ltac:(split; lia)). congruence. }
  apply CalculateSMA_error_cases in Efast.
  destruct (snd (CalculateSMA Format dataset slowPeriod priceType)) as [e|] eqn:Eslow.
  { pose proof (proj2 (CalculateSMA_error_cases Format dataset slowPeriod priceType)
                  ltac:(split; lia)). congruence. }
  repeat match goal with
         | |- context [if ?c then _ else _] => destruct c
         end; simpl; (split; [split; [intros _; lia | reflexivity] | intros _; tauto]).
Qed.

(** ** Momentum oscillator: structure of a run *)

(** An invariant that follows the counter of a loop. *)
Lemma loop_invariant_at {S} (P : Z -> S -> Prop) body n : forall lo s,
  P lo s ->
  (forall i s, (lo <= i < lo + Z.of_nat n)%Z -> P i s -> P (i + 1)%Z (body i s)) ->
  P (lo + Z.of_nat n)%Z (loop n lo body s).
Proof.
  induction n as [|n IH]; intros lo s Hs Hbody; simpl loop.
  - now replace (lo + Z.of_nat 0)%Z with lo by lia.
  - replace (lo + Z.of_nat (Datatypes.S n))%Z with (lo + 1 + Z.of_nat n)%Z by lia.
    apply IH.
    + apply Hbody; [lia | assumption].
    + intros i t Hi. apply Hbody. lia.
Qed.

Lemma fold_left_append_map {A B} (f : A -> B) (s : list A) : forall acc,
  fold_left (fun acc x => acc ++ [f x]) s acc = acc ++ map f s.
Proof.
  induction s as [|x s IH]; intros acc; simpl.
  - now rewrite app_nil_r.
  - rewrite IH, <- app_assoc. reflexivity.
Qed.

Lemma len_single {A} (x : A) : len [x] = 1%Z.
Proof. reflexivity. Qed.

(** The loop over the price changes records, for the change into bar
    [k + 1], its gain and its loss at position [k]. *)
Lemma changes_loop (prices : list float64) n gains losses :
  loop n 1
    (fun i '(gains, losses) =>
       let change := index 0 prices i - index 0 prices (i - 1) in
       if fgt change 0 then (gains ++ [change], losses ++ [0])
       else (gains ++ [0], losses ++ [- change])) ([], []) = (gains, losses) ->
  len gains = Z.of_nat n /\ len losses = Z.of_nat n /\
  forall k, (0 <= k < Z.of_nat n)%Z ->
    index 0 gains k = gain_of (index 0 prices (k + 1) - index 0 prices k) /\
    index 0 losses k = loss_of (index 0 prices (k + 1) - index 0 prices k).
Proof.
  intros Hloop.
  set (P := fun i (s : list float64 * list float64) =>
       len (fst s) = (i - 1)%Z /\ len (snd s) = (i - 1)%Z /\
       forall k, (0 <= k < i - 1)%Z ->
         index 0 (fst s) k = gain_of (index 0 prices (k + 1) - index 0 prices k) /\
         index 0 (snd s) k = loss_of (index 0 prices (k + 1) - index 0 prices k)).
  assert (Hinv : P (1 + Z.of_nat n)%Z (gains, losses)).
  { rewrite <- Hloop. apply loop_invariant_at; subst P; cbv beta.
  - simpl. repeat split; try reflexivity; lia.
  - intros i [g l] Hi (Hg & Hl & Hall). simpl in Hg, Hl, Hall. cbv zeta.
    unfold float64 in *.
    assert (Hstep : forall (xs : list Q) (x : Q) k (v : Q),
              len xs = (i - 1)%Z -> (0 <= k < i + 1 - 1)%Z ->
              ((k <> i - 1)%Z -> index 0 xs k = v) -> ((k = i - 1)%Z -> x = v) ->
              index 0 (xs ++ [x]) k = v).
    { intros xs x k v Hxs Hk Hold Hnew.
      destruct (Z.eq_dec k (i - 1)) as [->|Hne].
      - rewrite <- Hxs, index_app_last. now apply Hnew.
      - rewrite index_app_l by lia. now apply Hold. }
    destruct (fgt (index 0 prices i - index 0 prices (i - 1)) 0) eqn:E;
      simpl fst; simpl snd; rewrite !len_app, !len_single;
      (split; [lia|]); (split; [lia|]); intros k Hk;
      (split; apply Hstep; try assumption;
       [ intros Hne; apply Hall; lia
       | intros ->; replace (i - 1 + 1)%Z with i by lia;
         unfold gain_of, loss_of; rewrite E; reflexivity
       | intros Hne; apply Hall; lia
       | intros ->; replace (i - 1 + 1)%Z with i by lia;
         unfold gain_of, loss_of; rewrite E; reflexivity ]).
  }
  subst P. cbv beta in Hinv. simpl fst in Hinv. simpl snd in Hinv.
  destruct Hinv as (Hg & Hl & Hall). unfold float64 in *.
  split; [lia|]. split; [lia|]. intros k Hk. apply Hall. lia.
Qed.

Lemma seed_loop (gains losses : list float64) n : forall lo a b,
  loop n lo (fun i '(avgGain, avgLoss) =>
               (avgGain + index 0 gains i, avgLoss + index 0 losses i)) (a, b)
  = (loop n lo (fun i sum => sum + index 0 gains i) a,
     loop n lo (fun i sum => sum + index 0 losses i) b).
Proof.
  induction n as [|n IH]; intros lo a b; simpl; [reflexivity|]. apply IH.
Qed.

Lemma CalculateRSI_run Format dataset period priceType :
  (0 < period < len dataset)%Z ->
  exists gains losses : list float64,
    len gains = (len dataset - 1)%Z /\ len losses = (len dataset - 1)%Z /\
    (forall k, (0 <= k < len dataset - 1)%Z ->
       index 0 gains k =
         gain_of (ExtractPrice (index OHLCV_zero dataset (k + 1)) priceType
                  - ExtractPrice (index OHLCV_zero dataset k) priceType) /\
       index 0 losses k =
         loss_of (ExtractPrice (index OHLCV_zero dataset (k + 1)) priceType
                  - ExtractPrice (index OHLCV_zero dataset k) priceType)) /\
    CalculateRSI Format dataset period priceType
    = (snd (rsi_run Format dataset period gains losses), None).
Proof.
  intros Hp. unfold CalculateRSI.
  destruct (Z.eqb_spec (len dataset) 0); [lia|].
  destruct (Z.leb_spec period 0); [lia|].
  destruct (Z.geb_spec period (len dataset)); [lia|].
  rewrite (fold_left_append_map (fun candle => ExtractPrice candle priceType)).
  simpl app.
  set (prices := map (fun candle => ExtractPrice candle priceType) dataset).
  assert (Hlen : len prices = len dataset) by (unfold len, prices; now rewrite length_map).
  destruct (for_range 1 (len prices) _ _) as [gains losses] eqn:Echanges.
  unfold for_range in Echanges. apply changes_loop in Echanges.
  destruct Echanges as (Hg & Hl & Hall).
  replace (Z.of_nat (Z.to_nat (len prices - 1))) with (len dataset - 1)%Z in * by lia.
  exists gains, losses. split; [assumption|]. split; [assumption|]. split.
  { intros k Hk. specialize (Hall k Hk). unfold prices in Hall.
    rewrite !(index_map (fun candle => ExtractPrice candle priceType) OHLCV_zero) in Hall
      by lia.
    exact Hall. }
  destruct (Z.ltb_spec (len gains) period); [unfold float64 in *; lia|].
  unfold for_range at 1. rewrite seed_loop.
  unfold rsi_run, for_range, rsi_point, smooth. cbv zeta.
  replace (Z.to_nat (period - 0)) with (Z.to_nat period) by lia.
  match goal with
  | |- _ = (snd ?Y, None) => set (run := Y)
  end.
  change ((let '(_, _, results) := run in ok results) = (snd run, None)).
  destruct run as [[? ?] ?]. reflexivity.
Qed.

(** Every point of a run is the point of its bar for some pair of averages
    that satisfies an invariant of the smoothing. *)
Lemma rsi_run_points (I : Q -> Q -> Prop) Format dataset period (gains losses : list Q) :
  (period <= len gains)%Z ->
  I (loop (Z.to_nat period) 0 (fun i sum => sum + index 0 gains i) 0 / float64_of_int period)
    (loop (Z.to_nat period) 0 (fun i sum => sum + index 0 losses i) 0 / float64_of_int period) ->
  (forall i g l, (period <= i < len gains)%Z -> I g l ->
     I (smooth period g (index 0 gains i)) (smooth period l (index 0 losses i))) ->
  len (snd (rsi_run Format dataset period gains losses)) = (len gains - period + 1)%Z /\
  forall k, (0 <= k < len gains - period + 1)%Z ->
    exists g l, I g l /\
      index RSIResult_zero (snd (rsi_run Format dataset period gains losses)) k
      = rsi_point Format dataset (period + k) g l.
Proof.
  intros Hp Hseed Hstep. unfold rsi_run. cbv zeta.
  set (P := fun i (s : Q * Q * list RSIResult) =>
    I (fst (fst s)) (snd (fst s)) /\
    len (snd s) = (i - period + 1)%Z /\
    forall k, (0 <= k < i - period + 1)%Z ->
      exists g l, I g l /\
        index RSIResult_zero (snd s) k = rsi_point Format dataset (period + k) g l).
  match goal with
  | |- len (snd ?X) = _ /\ _ => assert (Hinv : P (period + Z.of_nat (Z.to_nat (len gains - period)))%Z X)
  end.
  { apply loop_invariant_at; subst P; cbv beta.
    - simpl fst. simpl snd. split; [exact Hseed|]. split; [rewrite len_single; lia|].
      intros k Hk. assert (k = 0%Z) as -> by lia.
      do 2 eexists. split; [exact Hseed|].
      replace (period + 0)%Z with period by lia. reflexivity.
    - intros i [[g l] rs] Hi (HI & Hlen & Hall). simpl in HI, Hlen, Hall.
      simpl fst. simpl snd. unfold float64 in *.
      split; [apply Hstep; [lia | assumption]|].
      split; [rewrite len_app, len_single; lia|].
      intros k Hk. destruct (Z.eq_dec k (len rs)) as [->|Hne].
      + rewrite index_app_last.
        exists (smooth period g (index 0 gains i)), (smooth period l (index 0 losses i)).
        split; [apply Hstep; [lia | assumption]|].
        f_equal. lia.
      + rewrite index_app_l by lia. apply Hall. lia. }
  subst P. cbv beta in Hinv. destruct Hinv as (_ & Hlen & Hall). unfold float64 in *.
  split; [lia|]. intros k Hk. apply Hall. lia.
Qed.

Lemma CalculateRSI_invalid Format dataset period priceType :
  ~ (0 < period < len dataset)%Z ->
  fst (CalculateRSI Format dataset period priceType) = [] /\
  (snd (CalculateRSI Format dataset period priceType) = Some ErrDatasetEmpty \/
   snd (CalculateRSI Format dataset period priceType) = Some ErrPeriodNotPositive \/
   snd (CalculateRSI Format dataset period priceType)
     = Some (ErrPeriodNotLess period (len dataset))).
Proof.
  intros Hinvalid. unfold CalculateRSI.
  destruct (Z.eqb_spec (len dataset) 0); [simpl; auto|].
  destruct (Z.leb_spec period 0); [simpl; auto|].
  destruct (Z.geb_spec period (len dataset)); [simpl; auto|]. lia.
Qed.

(** X5. CalculateRSI succeeds exactly when [0 < period < len(dataset)],
    and it then emits [len(dataset) - period] points; when it fails, the
    error is that of one of its three guards on the dataset and the period:
    the guard on the number of price changes never fires. *)
Theorem CalculateRSI_succeeds_iff :
  forall (Format : Time -> string) (dataset : list OHLCV) (period : Z) (priceType : PriceType),
    (snd (CalculateRSI Format dataset period priceType) = None <->
     (0 < period < len dataset)%Z) /\
    (forall e, snd (CalculateRSI Format dataset period priceType) = Some e ->
       e = ErrDatasetEmpty \/ e = ErrPeriodNotPositive \/
       e = ErrPeriodNotLess period (len dataset)) /\
    ((0 < period < len dataset)%Z ->
     len (fst (CalculateRSI Format dataset period priceType)) = (len dataset - period)%Z).
Proof.
  intros Format dataset period priceType.
  destruct (Z_lt_dec 0 period) as [Hpos|Hneg];
    [destruct (Z_lt_dec period (len dataset)) as [Hlt|Hge]|].
  - destruct (CalculateRSI_run Format dataset period priceType ltac:(lia))
      as (gains & losses & Hg & Hl & _ & Hrun).
    rewrite Hrun. simpl fst. simpl snd.
    split; [split; [intros _; lia | reflexivity]|].
    split; [discriminate|]. intros _.
    destruct (rsi_run_points (fun _ _ => True) Format dataset period gains losses)
      as [Hlen _]; auto; unfold float64 in *; lia.
  - destruct (CalculateRSI_invalid Format dataset period priceType ltac:(lia))
      as [Hnil Herr].
    split; [split; [intros H; destruct Herr as [E|[E|E]]; congruence | lia]|].
    split; [|lia]. intros e He. destruct Herr as [E|[E|E]]; rewrite E in He;
      injection He as <-; auto.
  - destruct (CalculateRSI_invalid Format dataset period priceType ltac:(lia))
      as [Hnil Herr].
    split; [split; [intros H; destruct Herr as [E|[E|E]]; congruence | lia]|].
    split; [|lia]. intros e He. destruct Herr as [E|[E|E]]; rewrite E in He;
      injection He as <-; auto.
Qed.

(** X6. The [k]-th point of a successful CalculateRSI carries the
    formatted timestamp of bar [period + k], and its signal is the label
    that getRSISignal gives its value. *)
Theorem CalculateRSI_alignment :
  forall (Format : Time -> string) (dataset : list OHLCV) (period : Z) (priceType : PriceType),
    (0 < period < len dataset)%Z ->
    forall k, (0 <= k < len dataset - period)%Z ->
      exists r,
        nth_error (fst (CalculateRSI Format dataset period priceType)) (Z.to_nat k) = Some r /\
        RSI_Timestamp r = Format (Timestamp (index OHLCV_zero dataset (period + k))) /\
        RSI_Signal r = getRSISignal (RSI_Value r).
Proof.
  intros Format dataset period priceType Hp k Hk.
  destruct (CalculateRSI_run Format dataset period priceType Hp)
    as (gains & losses & Hg & Hl & _ & Hrun).
  rewrite Hrun. simpl fst.
  destruct (rsi_run_points (fun _ _ => True) Format dataset period gains losses)
    as [Hlen Hall]; auto; [unfold float64 in *; lia|].
  destruct (Hall k ltac:(unfold float64 in *; lia)) as (g & l & _ & Hpoint).
  exists (rsi_point Format dataset (period + k) g l). split.
  - rewrite <- Hpoint. apply index_nth_error. unfold float64 in *. lia.
  - split; reflexivity.
Qed.

Lemma sum_all_zero (g : Z -> Q) n : forall lo,
  (forall i, (lo <= i < lo + Z.of_nat n)%Z -> g i == 0) ->
  fold_right Qplus 0 (map g (zseq lo n)) == 0.
Proof.
  induction n as [|n IH]; intros lo Hg; [reflexivity|].
  rewrite zseq_S. simpl. rewrite IH by (intros; apply Hg; lia).
  rewrite Hg by lia. reflexivity.
Qed.



Lemma smooth_zero period avg sample :
  (0 < period)%Z -> avg == 0 -> sample == 0 -> smooth period avg sample == 0.
Proof.
  intros Hp Havg Hs. unfold smooth. apply zero_div. rewrite Havg, Hs. ring.
Qed.


Lemma loss_of_rise change : 0 <= change -> loss_of change == 0.
Proof.
  intros H. unfold loss_of. destruct (fgt change 0) eqn:E; [reflexivity|].
  apply fgt_false in E. lra.
Qed.


Lemma In_index {A} (zero : A) (s : list A) x :
  In x s -> exists k, (0 <= k < len s)%Z /\ index zero s k = x.
Proof.
  intros H. destruct (In_nth s x zero H) as (n & Hn & Hx).
  exists (Z.of_nat n). split; [unfold len; lia|].
  unfold index. destruct (Z.ltb_spec (Z.of_nat n) 0); [lia|].
  now rewrite Nat2Z.id.
Qed.

(** X7. On a series whose selected price never falls, a flat series
    included, every point that CalculateRSI emits has the value
    [100 - 100/(1 + 100) = 10000/101] and the signal extreme_overbought:
    the average loss stays 0, so that RS is the sentinel 100 at every
    point. *)
Theorem CalculateRSI_never_falling :
  forall (Format : Time -> string) (dataset : list OHLCV) (period : Z) (priceType : PriceType),
    never_falls dataset priceType ->
    forall r, In r (fst (CalculateRSI Format dataset period priceType)) ->
      RSI_Value r == 10000 # 101 /\ RSI_Signal r = "extreme_overbought".
Proof.
  intros Format dataset period priceType Hrise r.
  destruct (Z_lt_dec 0 period) as [Hpos|Hneg];
    [destruct (Z_lt_dec period (len dataset)) as [Hlt|Hge]|].
  2,3: destruct (CalculateRSI_invalid Format dataset period priceType ltac:(lia))
         as [-> _]; intros [].
  destruct (CalculateRSI_run Format dataset period priceType ltac:(lia))
    as (gains & losses & Hg & Hl & Hchanges & Hrun).
  rewrite Hrun. simpl fst. intros Hin.
  assert (Hloss : forall i, (0 <= i < len dataset - 1)%Z -> index 0 losses i == 0).
  { intros i Hi. rewrite (proj2 (Hchanges i Hi)). apply loss_of_rise.
    specialize (Hrise i Hi). lra. }
  destruct (rsi_run_points (fun _ l => l == 0) Format dataset period gains losses)
    as [Hlen Hall].
  - unfold float64 in *. lia.
  - apply zero_div. rewrite (loop_sum (fun i => index 0 losses i)).
    rewrite sum_all_zero; [reflexivity|]. intros i Hi. apply Hloss. lia.
  - intros i g l Hi Hz. apply smooth_zero; [lia | assumption |].
    apply Hloss. unfold float64 in *. lia.
  - destruct (In_index RSIResult_zero _ r Hin) as (k & Hk & <-).
    destruct (Hall k ltac:(lia)) as (g & l & Hz & ->).
    unfold rsi_point. cbv zeta. simpl RSI_Value. simpl RSI_Signal.
    replace (feq l 0) with true by (symmetry; now apply Qeq_bool_iff).
    split; reflexivity.
Qed.


(** ** Momentum oscillator: the strategy layer *)

Lemma CalculateRSI_cases Format dataset period priceType :
  (snd (CalculateRSI Format dataset period priceType) = None /\
   (1 <= len (fst (CalculateRSI Format dataset period priceType)))%Z /\
   forall r, In r (fst (CalculateRSI Format dataset period priceType)) ->
     RSI_Signal r = getRSISignal (RSI_Value r)) \/
  (exists e, snd (CalculateRSI Format dataset period priceType) = Some e).
Proof.
  destruct (Z_lt_dec 0 period) as [Hpos|Hneg];
    [destruct (Z_lt_dec period (len dataset)) as [Hlt|Hge]|].
  2,3: right; destruct (CalculateRSI_invalid Format dataset period priceType ltac:(lia))
         as [_ [E|[E|E]]]; eauto.
  left.
  destruct (CalculateRSI_run Format dataset period priceType ltac:(lia))
    as (gains & losses & Hg & Hl & _ & Hrun).
  rewrite Hrun. simpl fst. simpl snd.
  destruct (rsi_run_points (fun _ _ => True) Format dataset period gains losses)
    as [Hlen Hall]; auto; [unfold float64 in *; lia|].
  split; [reflexivity|]. split; [unfold float64 in *; lia|].
  intros r Hin. destruct (In_index RSIResult_zero _ r Hin) as (k & Hk & <-).
  destruct (Hall k ltac:(lia)) as (g & l & _ & ->). reflexivity.
Qed.

Lemma index_In_last {A} (zero : A) (s : list A) :
  (1 <= len s)%Z -> In (index zero s (len s - 1)) s.
Proof. intros H. apply index_In. lia. Qed.

Lemma GetLatestRSI_cases Format dataset period priceType :
  snd (GetLatestRSI Format dataset period priceType)
    = snd (CalculateRSI Format dataset period priceType) /\
  (snd (CalculateRSI Format dataset period priceType) = None ->
   RSI_Signal (fst (GetLatestRSI Format dataset period priceType))
   = getRSISignal (RSI_Value (fst (GetLatestRSI Format dataset period priceType)))).
Proof.
  unfold GetLatestRSI, try.
  destruct (CalculateRSI_cases Format dataset period priceType)
    as [(Hok & Hlen & Hsig) | (e & He)].
  - rewrite Hok. destruct (Z.eqb_spec (len (fst (CalculateRSI Format dataset period priceType))) 0);
      [lia|].
    simpl. split; [reflexivity|]. intros _. apply Hsig. now apply index_In_last.
  - rewrite He. simpl. split; [reflexivity | discriminate].
Qed.

Lemma DetectRSIDivergence_error Format dataset period priceType lookback :
  snd (DetectRSIDivergence Format dataset period priceType lookback)
  = snd (CalculateRSI Format dataset period priceType).
Proof.
  unfold DetectRSIDivergence, try. cbv zeta.
  destruct (snd (CalculateRSI Format dataset period priceType)) as [e|]; [reflexivity|].
  destruct (_ || _); [reflexivity|].
  destruct (for_range _ _ _ _) as [[[priceHighs priceLows] rsiHighs] rsiLows].
  repeat match goal with
         | |- context [if ?c then _ else _] => destruct c
         end; reflexivity.
Qed.

(** X9. DetectRSIDivergence fails exactly when CalculateRSI fails, with
    the same error. When it succeeds, the type of the divergence is none,
    bearish or bullish, its confidence lies between 0 and 1, and the type
    none comes with the confidence 0. *)
Theorem DetectRSIDivergence_outcome :
  forall (Format : Time -> string) (dataset : list OHLCV) (period : Z)
         (priceType : PriceType) (lookback : Z),
    snd (DetectRSIDivergence Format dataset period priceType lookback)
      = snd (CalculateRSI Format dataset period priceType) /\
    (snd (CalculateRSI Format dataset period priceType) = None ->
     In (RD_Type (fst (DetectRSIDivergence Format dataset period priceType lookback)))
        ["none"; "bearish"; "bullish"] /\
     0 <= RD_Confidence (fst (DetectRSIDivergence Format dataset period priceType lookback))
       <= 1 /\
     (RD_Type (fst (DetectRSIDivergence Format dataset period priceType lookback)) = "none" ->
      RD_Confidence (fst (DetectRSIDivergence Format dataset period priceType lookback)) == 0)).
Proof.
  intros Format dataset period priceType lookback.
  unfold DetectRSIDivergence, try. cbv zeta.
  destruct (snd (CalculateRSI Format dataset period priceType)) as [e|] eqn:Ecalc.
  { simpl. split; [reflexivity | discriminate]. }
  assert (Hconf : forall x : Q,
            0 <= (if fgt (Qabs x / 10) 1 then 1 else Qabs x / 10) <= 1).
  { intros x. destruct (fgt (Qabs x / 10) 1) eqn:E; [lra|].
    apply fgt_false in E. split; [|assumption].
    apply Qdiv_nonneg; [apply Qabs_nonneg | lra]. }
  destruct (_ || _).
  { simpl. split; [reflexivity|]. intros _. repeat split; try lra; simpl; auto. }
  destruct (for_range _ _ _ _) as [[[priceHighs priceLows] rsiHighs] rsiLows].
  repeat match goal with
         | |- context [if ?c then _ else _] =>
             lazymatch c with
             | context [Qabs] => fail
             | _ => destruct c
             end
         end;
    unfold ok; cbn [fst snd RD_Type RD_Confidence];
    (split; [reflexivity|]); intros _;
    (split; [simpl; auto|]); (split; [first [apply Hconf | lra]|]);
    first [discriminate | reflexivity].
Qed.

(** X10. AnalyzeRSIStrategy fails exactly when CalculateRSI fails, with
    the same error. When it succeeds, its condition goes with the label of
    the current point (extreme_high with extreme_overbought, overbought
    with overbought, extreme_low with extreme_oversold, oversold with
    oversold, neutral with neutral), its signal is one of strong_buy,
    strong_sell, buy, sell, bullish, bearish and hold, and its momentum one
    of strengthening, weakening and neutral. *)
Theorem AnalyzeRSIStrategy_outcome :
  forall (Format : Time -> string) (dataset : list OHLCV) (period : Z) (priceType : PriceType),
    snd (AnalyzeRSIStrategy Format dataset period priceType)
      = snd (CalculateRSI Format dataset period priceType) /\
    (snd (CalculateRSI Format dataset period priceType) = None ->
     In (Condition (fst (AnalyzeRSIStrategy Format dataset period priceType)),
         RSI_Signal (RS_Current (fst (AnalyzeRSIStrategy Format dataset period priceType))))
        condition_labels /\
     In (RS_Signal (fst (AnalyzeRSIStrategy Format dataset period priceType)))
        ["strong_buy"; "strong_sell"; "buy"; "sell"; "bullish"; "bearish"; "hold"] /\
     In (Momentum (fst (AnalyzeRSIStrategy Format dataset period priceType)))
        ["strengthening"; "weakening"; "neutral"]).
Proof.
  intros Format dataset period priceType.
  destruct (GetLatestRSI_cases Format dataset period priceType) as [Hlatest Hlabel].
  pose proof (DetectRSIDivergence_error Format dataset period priceType 10) as Hdiv.
  unfold AnalyzeRSIStrategy, try. rewrite Hlatest, Hdiv.
  destruct (snd (CalculateRSI Format dataset period priceType)) as [e|] eqn:Ecalc.
  { simpl. split; [reflexivity | discriminate]. }
  specialize (Hlabel eq_refl). cbv zeta. simpl snd.
  split; [reflexivity|]. intros _. simpl fst.
  simpl Condition. simpl RS_Current. simpl RS_Signal. simpl Momentum.
  rewrite Hlabel. unfold getRSISignal, condition_labels.
  set (value := RSI_Value (fst (GetLatestRSI Format dataset period priceType))).
  split; [|split].
  - destruct (fge value 80); [simpl; auto|].
    destruct (fge value 70); [simpl; auto|].
    destruct (fle value 20); [simpl; auto|].
    destruct (fle value 30); simpl; auto 6.
  - repeat match goal with
           | |- context [if ?c then _ else _] => destruct c
           end; simpl; auto 10.
  - repeat match goal with
           | |- context [if ?c then _ else _] => destruct c
           end; simpl; auto.
Qed.

(** ** Volume engine: structure of a run *)

Lemma loop_ext_range {S} (body body' : Z -> S -> S) n : forall lo s,
  (forall i s, (lo <= i < lo + Z.of_nat n)%Z -> body i s = body' i s) ->
  loop n lo body s = loop n lo body' s.
Proof.
  induction n as [|n IH]; intros lo s H; simpl; [reflexivity|].
  rewrite H by lia. apply IH. intros; apply H; lia.
Qed.

Lemma CalculateVolumeAnalysis_invalid Format dataset vmaPeriod vrocPeriod :
  ~ volume_valid dataset vmaPeriod vrocPeriod ->
  fst (CalculateVolumeAnalysis Format dataset vmaPeriod vrocPeriod) = [] /\
  exists e, snd (CalculateVolumeAnalysis Format dataset vmaPeriod vrocPeriod) = Some e.
Proof.
  unfold volume_valid. intros Hinvalid. unfold CalculateVolumeAnalysis.
  destruct (Z.eqb_spec (len dataset) 0); [simpl; eauto|].
  destruct (Z.leb_spec vmaPeriod 0); [simpl; eauto|].
  destruct (Z.leb_spec vrocPeriod 0); [simpl; eauto|]. simpl orb. cbv iota zeta.
  destruct (Z.gtb_spec vrocPeriod vmaPeriod);
    (match goal with |- context [(len dataset <=? ?m)%Z] =>
       destruct (Z.leb_spec (len dataset) m) end; [simpl; eauto | lia]).
Qed.

Lemma CalculateVolumeAnalysis_run Format dataset vmaPeriod vrocPeriod :
  volume_valid dataset vmaPeriod vrocPeriod ->
  exists results,
    CalculateVolumeAnalysis Format dataset vmaPeriod vrocPeriod = (results, None) /\
    len results = (len dataset - Z.max vmaPeriod vrocPeriod)%Z /\
    forall k, (0 <= k < len results)%Z ->
      index VolumeResult_zero results k
      = volume_point Format dataset vmaPeriod vrocPeriod (Z.max vmaPeriod vrocPeriod + k)
          (accumulators_before dataset results k).
Proof.
  unfold volume_valid. intros (Hvma & Hvroc & Hmax). unfold CalculateVolumeAnalysis.
  destruct (Z.eqb_spec (len dataset) 0); [lia|].
  destruct (Z.leb_spec vmaPeriod 0); [lia|].
  destruct (Z.leb_spec vrocPeriod 0); [lia|]. simpl orb. cbv iota zeta.
  set (maxPeriod := if (vrocPeriod >? vmaPeriod)%Z then vrocPeriod else vmaPeriod).
  assert (HmaxPeriod : maxPeriod = Z.max vmaPeriod vrocPeriod).
  { subst maxPeriod. destruct (Z.gtb_spec vrocPeriod vmaPeriod); lia. }
  destruct (Z.leb_spec (len dataset) maxPeriod); [lia|].
  assert (Hseed : index 0 (map Volume dataset) 0 = Volume (hd OHLCV_zero dataset)).
  { destruct dataset; reflexivity. }
  rewrite Hseed. set (seed := Volume (hd OHLCV_zero dataset)).
  rewrite <- HmaxPeriod.
  set (P := fun i (s : list VolumeResult * Q * Q * Q) =>
    len (fst (fst (fst s))) = (i - maxPeriod)%Z /\
    (snd (fst (fst s)), snd (fst s), snd s)
      = accumulators_before dataset (fst (fst (fst s))) (i - maxPeriod) /\
    forall k, (0 <= k < i - maxPeriod)%Z ->
      index VolumeResult_zero (fst (fst (fst s))) k
      = volume_point Format dataset vmaPeriod vrocPeriod (maxPeriod + k)
          (accumulators_before dataset (fst (fst (fst s))) k)).
  match goal with
  | |- context [for_range maxPeriod (len dataset) ?body ?init] =>
      set (X := for_range maxPeriod (len dataset) body init)
  end.
  assert (Hinv : P (maxPeriod + Z.of_nat (Z.to_nat (len dataset - maxPeriod)))%Z X).
  { subst X. unfold for_range at 1. apply loop_invariant_at; subst P; cbv beta.
    - simpl fst. simpl snd. split; [unfold len; simpl; lia|]. split.
      + unfold accumulators_before. replace (maxPeriod - maxPeriod)%Z with 0%Z by lia.
        reflexivity.
      + intros k Hk. lia.
    - intros i [[[rs o] v] a] Hi (Hlen & Hacc & Hall). simpl in Hlen, Hacc, Hall.
      simpl fst. simpl snd.
      assert (Hi0 : (0 <= i < len dataset)%Z) by lia.
      assert (Hi1 : (0 <= i - 1 < len dataset)%Z) by lia.
      assert (Hik : (0 <= i - vrocPeriod < len dataset)%Z) by lia.
      rewrite !(index_map Close OHLCV_zero), !(index_map Volume OHLCV_zero),
        !(index_map High OHLCV_zero), !(index_map Low OHLCV_zero) by assumption.
      destruct (Z.gtb_spec i 0); [|lia].
      destruct (Z.geb_spec i vrocPeriod); [|lia]. simpl andb.
      set (point := mkVolumeResult _ _ _ _ _ _ _).
      assert (Hpoint : point = volume_point Format dataset vmaPeriod vrocPeriod i (o, v, a)).
      { subst point. unfold volume_point, for_range.
        replace (Z.to_nat (i + 1 - (i - vmaPeriod + 1))) with (Z.to_nat vmaPeriod) by lia.
        f_equal. f_equal.
        apply loop_ext_range. intros j sum Hj.
        rewrite (index_map Volume OHLCV_zero) by lia. reflexivity. }
      assert (Hbefore : forall k, (0 <= k <= len rs)%Z ->
                accumulators_before dataset (rs ++ [point]) k
                = accumulators_before dataset rs k).
      { intros k Hk. unfold accumulators_before.
        destruct (Z.eqb_spec k 0); [reflexivity|].
        rewrite index_app_l by lia. reflexivity. }
      split; [rewrite len_app, len_single; lia|]. split.
      + unfold accumulators_before at 1.
        destruct (Z.eqb_spec (i + 1 - maxPeriod) 0); [lia|].
        replace (i + 1 - maxPeriod - 1)%Z with (len rs) by lia.
        rewrite index_app_last. reflexivity.
      + intros k Hk. rewrite Hbefore by lia.
        destruct (Z.eq_dec k (len rs)) as [->|Hne].
        * rewrite index_app_last, Hpoint, Hlen, <- Hacc.
          f_equal. lia.
        * rewrite index_app_l by lia. apply Hall. lia. }
  destruct X as [[[results obv] vpt] adl]. subst P. cbv beta in Hinv.
  simpl fst in Hinv. simpl snd in Hinv.
  destruct Hinv as (Hlen & _ & Hall).
  exists results. split; [reflexivity|]. split; [lia|].
  intros k Hk. apply Hall. lia.
Qed.



Lemma CalculateVolumeAnalysis_succeeds Format dataset vmaPeriod vrocPeriod :
  snd (CalculateVolumeAnalysis Format dataset vmaPeriod vrocPeriod) = None <->
  volume_valid dataset vmaPeriod vrocPeriod.
Proof.
  split.
  - intros Hok. destruct (Z_lt_dec 0 vmaPeriod);
      [destruct (Z_lt_dec 0 vrocPeriod);
       [destruct (Z_lt_dec (Z.max vmaPeriod vrocPeriod) (len dataset))|]|].
    1: now repeat split.
    all: destruct (CalculateVolumeAnalysis_invalid Format dataset vmaPeriod vrocPeriod)
           as [_ [e He]]; [unfold volume_valid; lia | congruence].
  - intros Hvalid.
    destruct (CalculateVolumeAnalysis_run Format dataset vmaPeriod vrocPeriod Hvalid)
      as (results & -> & _). reflexivity.
Qed.




(** ** Volume engine: the detectors *)

Lemma GetLatestVolumeAnalysis_cases Format dataset vmaPeriod vrocPeriod :
  snd (GetLatestVolumeAnalysis Format dataset vmaPeriod vrocPeriod)
  = snd (CalculateVolumeAnalysis Format dataset vmaPeriod vrocPeriod).
Proof.
  unfold GetLatestVolumeAnalysis, try.
  destruct (snd (CalculateVolumeAnalysis Format dataset vmaPeriod vrocPeriod)) as [e|] eqn:E;
    [reflexivity|].
  apply CalculateVolumeAnalysis_succeeds in E.
  destruct (CalculateVolumeAnalysis_run Format dataset vmaPeriod vrocPeriod E)
    as (results & -> & Hlen & _).
  simpl fst. destruct E as (_ & _ & Hmax).
  destruct (Z.eqb_spec (len results) 0); [lia | reflexivity].
Qed.

Lemma DetectVolumeBreakout_cases Format dataset vmaPeriod multiplier :
  snd (DetectVolumeBreakout Format dataset vmaPeriod multiplier)
  = snd (CalculateVolumeAnalysis Format dataset vmaPeriod 5).
Proof.
  unfold DetectVolumeBreakout, try. rewrite GetLatestVolumeAnalysis_cases.
  destruct (snd (CalculateVolumeAnalysis Format dataset vmaPeriod 5)); [reflexivity|].
  cbv zeta.
  repeat match goal with
         | |- context [if ?c then _ else _] => destruct c
         end; reflexivity.
Qed.

Lemma DetectAccumulationDistribution_cases Format dataset lookback :
  snd (DetectAccumulationDistribution Format dataset lookback)
  = snd (CalculateVolumeAnalysis Format dataset 10 5).
Proof.
  unfold DetectAccumulationDistribution, try. cbv zeta.
  destruct (snd (CalculateVolumeAnalysis Format dataset 10 5)); [reflexivity|].
  destruct (len _ <? _)%Z; [reflexivity|].
  destruct (for_range _ _ _ _) as [[[adlSum timeSum] adlTimeSum] timeSquareSum].
  repeat match goal with
         | |- context [if ?c then _ else _] => destruct c
         end; reflexivity.
Qed.

Lemma AnalyzeVolumeStrategy_error Format dataset vmaPeriod vrocPeriod :
  snd (AnalyzeVolumeStrategy Format dataset vmaPeriod vrocPeriod) = None <->
  (0 < vmaPeriod < len dataset /\ 0 < vrocPeriod < len dataset /\ 10 < len dataset)%Z.
Proof.
  unfold AnalyzeVolumeStrategy, try.
  rewrite GetLatestVolumeAnalysis_cases, DetectVolumeBreakout_cases,
    DetectAccumulationDistribution_cases.
  pose proof (CalculateVolumeAnalysis_succeeds Format dataset vmaPeriod vrocPeriod) as H1.
  pose proof (CalculateVolumeAnalysis_succeeds Format dataset vmaPeriod 5) as H2.
  pose proof (CalculateVolumeAnalysis_succeeds Format dataset 10 5) as H3.
  unfold volume_valid in H1, H2, H3.
  destruct (snd (CalculateVolumeAnalysis Format dataset vmaPeriod vrocPeriod)) as [e|].
  { simpl. split; [discriminate|]. intros Hv.
    assert (Some e = None) by (apply H1; lia). discriminate. }
  destruct (snd (CalculateVolumeAnalysis Format dataset vmaPeriod 5)) as [e|].
  { simpl. split; [discriminate|]. intros Hv.
    assert (Some e = None) by (apply H2; lia). discriminate. }
  destruct (snd (CalculateVolumeAnalysis Format dataset 10 5)) as [e|].
  { simpl. split; [discriminate|]. intros Hv.
    assert (Some e = None) by (apply H3; lia). discriminate. }
  pose proof (proj1 H1 eq_refl). pose proof (proj1 H2 eq_refl). pose proof (proj1 H3 eq_refl).
  cbv zeta. simpl snd. split; [intros _; lia | reflexivity].
Qed.

(** X14. AnalyzeVolumeStrategy succeeds exactly when
    [0 < vmaPeriod < len(dataset)], [0 < vrocPeriod < len(dataset)] and
    [len(dataset) > 10]: its detectors run the volume analysis with the
    periods [(vmaPeriod, 5)] and [(10, 5)]. Its signal is then one of
    strong_buy, strong_sell, buy, sell, accumulate, distribute,
    low_volume_alert and hold. *)
Theorem AnalyzeVolumeStrategy_succeeds_iff :
  forall (Format : Time -> string) (dataset : list OHLCV) (vmaPeriod vrocPeriod : Z),
    (snd (AnalyzeVolumeStrategy Format dataset vmaPeriod vrocPeriod) = None <->
     (0 < vmaPeriod < len dataset /\ 0 < vrocPeriod < len dataset /\ 10 < len dataset)%Z) /\
    (snd (AnalyzeVolumeStrategy Format dataset vmaPeriod vrocPeriod) = None ->
     In (VSt_Signal (fst (AnalyzeVolumeStrategy Format dataset vmaPeriod vrocPeriod)))
        ["strong_buy"; "strong_sell"; "buy"; "sell"; "accumulate"; "distribute";
         "low_volume_alert"; "hold"]).
Proof.
  intros Format dataset vmaPeriod vrocPeriod.
  unfold AnalyzeVolumeStrategy, try.
  rewrite GetLatestVolumeAnalysis_cases, DetectVolumeBreakout_cases,
    DetectAccumulationDistribution_cases.
  destruct (snd (CalculateVolumeAnalysis Format dataset vmaPeriod vrocPeriod))
    as [e|] eqn:E1.
  { simpl. split; [split; [discriminate|] | discriminate].
    intros Hv. assert (Hok : volume_valid dataset vmaPeriod vrocPeriod)
      by (unfold volume_valid; lia).
    apply (proj2 (CalculateVolumeAnalysis_succeeds Format _ _ _)) in Hok. congruence. }
  apply CalculateVolumeAnalysis_succeeds in E1. unfold volume_valid in E1.
  destruct (snd (CalculateVolumeAnalysis Format dataset vmaPeriod 5)) as [e|] eqn:E2.
  { simpl. split; [split; [discriminate|] | discriminate].
    intros Hv. assert (Hok : volume_valid dataset vmaPeriod 5)
      by (unfold volume_valid; lia).
    apply (proj2 (CalculateVolumeAnalysis_succeeds Format _ _ _)) in Hok. congruence. }
  apply CalculateVolumeAnalysis_succeeds in E2. unfold volume_valid in E2.
  destruct (snd (CalculateVolumeAnalysis Format dataset 10 5)) as [e|] eqn:E3.
  { simpl. split; [split; [discriminate|] | discriminate].
    intros Hv. assert (Hok : volume_valid dataset 10 5)
      by (unfold volume_valid; lia).
    apply (proj2 (CalculateVolumeAnalysis_succeeds Format _ _ _)) in Hok. congruence. }
  apply CalculateVolumeAnalysis_succeeds in E3. unfold volume_valid in E3.
  cbv zeta. simpl snd. simpl fst.
  split; [split; [intros _; lia | reflexivity]|]. intros _.
  simpl VSt_Signal.
  repeat match goal with
         | |- In (if ?c then _ else _) _ => destruct c
         end; simpl; auto 10.
Qed.

(** X15. With a multiplier that is not negative, a successful
    DetectVolumeBreakout grades its signal as (breakout, extreme, 0.9),
    (breakout, strong, 0.8), (breakout, moderate, 0.6) or
    (normal, weak, 0.3), with the trend bullish, bearish or neutral. *)
Theorem DetectVolumeBreakout_grades :
  forall (Format : Time -> string) (dataset : list OHLCV) (vmaPeriod : Z)
         (multiplier : float64),
    0 <= multiplier ->
    snd (DetectVolumeBreakout Format dataset vmaPeriod multiplier) = None ->
    In (VS_Type (fst (DetectVolumeBreakout Format dataset vmaPeriod multiplier)),
        VS_Strength (fst (DetectVolumeBreakout Format dataset vmaPeriod multiplier)),
        VS_Confidence (fst (DetectVolumeBreakout Format dataset vmaPeriod multiplier)))
       breakout_grades /\
    In (VS_Trend (fst (DetectVolumeBreakout Format dataset vmaPeriod multiplier)))
       ["bullish"; "bearish"; "neutral"].
Proof.
  intros Format dataset vmaPeriod multiplier Hm.
  rewrite DetectVolumeBreakout_cases. intros Hok.
  apply CalculateVolumeAnalysis_succeeds in Hok. destruct Hok as (Hvma & _ & Hlen).
  unfold DetectVolumeBreakout, try. rewrite GetLatestVolumeAnalysis_cases.
  replace (snd (CalculateVolumeAnalysis Format dataset vmaPeriod 5)) with (@None error)
    by (symmetry; apply CalculateVolumeAnalysis_succeeds; unfold volume_valid; lia).
  cbv zeta.
  set (ratio := VR_Volume _ / VMA _).
  destruct (Z.geb_spec (len dataset) 2); [|lia].
  assert (H3 : fge ratio (multiplier * 3) = true -> fge ratio multiplier = true).
  { unfold fge. rewrite !Qle_bool_iff. lra. }
  assert (H2 : fge ratio (multiplier * 2) = true -> fge ratio multiplier = true).
  { unfold fge. rewrite !Qle_bool_iff. lra. }
  unfold breakout_grades.
  destruct (fge ratio (multiplier * 3)) eqn:E3.
  { rewrite (H3 eq_refl).
    repeat match goal with
           | |- context [if ?c then _ else _] => destruct c
           end; simpl; auto. }
  destruct (fge ratio (multiplier * 2)) eqn:E2.
  { rewrite (H2 eq_refl).
    repeat match goal with
           | |- context [if ?c then _ else _] => destruct c
           end; simpl; auto. }
  destruct (fge ratio multiplier) eqn:E1;
    repeat match goal with
           | |- context [if ?c then _ else _] => destruct c
           end; simpl; auto 6.
Qed.

(** ** Signal fusion: the outcome tables *)

Lemma ComprehensiveAnalysis_table Format ABS dataset smaPeriod bbPeriod rsiPeriod
    bbMultiplier priceType :
  In (CT_FinalSignal (fst (ComprehensiveAnalysis Format ABS dataset smaPeriod bbPeriod
                             rsiPeriod bbMultiplier priceType)),
      CT_Confidence (fst (ComprehensiveAnalysis Format ABS dataset smaPeriod bbPeriod
                            rsiPeriod bbMultiplier priceType)),
      CT_RiskLevel (fst (ComprehensiveAnalysis Format ABS dataset smaPeriod bbPeriod
                           rsiPeriod bbMultiplier priceType)))
     technical_outcomes.
Proof.
  unfold ComprehensiveAnalysis. cbv zeta.
  destruct (fold_left _ _ _) as [bullishCount bearishCount].
  set (sma := if (_ && _)%bool then "strong_bullish" else _).
  unfold technical_outcomes.
  repeat match goal with
         | |- context [if ?c then _ else _] =>
             lazymatch c with
             | context [sma] => fail
             | _ => destruct c
             end
         end; simpl; auto 10.
Qed.

(** X16. The final signal, confidence and risk level of
    ComprehensiveAnalysis are one of (STRONG BUY, HIGH, LOW),
    (BUY, MEDIUM, LOW), (STRONG SELL, HIGH, HIGH), (SELL, MEDIUM, MEDIUM),
    (WAIT, HIGH, LOW) and (HOLD, LOW, MEDIUM), and its SMA signal is
    strong_bullish, strong_bearish, bullish or bearish, never the initial
    neutral; this holds for every band engine. *)
Theorem ComprehensiveAnalysis_outcomes :
  forall (Format : Time -> string)
         (AnalyzeBollingerStrategy :
            list OHLCV -> Z -> float64 -> PriceType -> result BollingerStrategy)
         (dataset : list OHLCV) (smaPeriod bbPeriod rsiPeriod : Z)
         (bbMultiplier : float64) (priceType : PriceType),
    In (CT_FinalSignal (fst (ComprehensiveAnalysis Format AnalyzeBollingerStrategy dataset
                               smaPeriod bbPeriod rsiPeriod bbMultiplier priceType)),
        CT_Confidence (fst (ComprehensiveAnalysis Format AnalyzeBollingerStrategy dataset
                              smaPeriod bbPeriod rsiPeriod bbMultiplier priceType)),
        CT_RiskLevel (fst (ComprehensiveAnalysis Format AnalyzeBollingerStrategy dataset
                             smaPeriod bbPeriod rsiPeriod bbMultiplier priceType)))
       technical_outcomes /\
    In (SMASignal (fst (ComprehensiveAnalysis Format AnalyzeBollingerStrategy dataset
                          smaPeriod bbPeriod rsiPeriod bbMultiplier priceType)))
       ["strong_bullish"; "strong_bearish"; "bullish"; "bearish"].
Proof.
  intros Format ABS dataset smaPeriod bbPeriod rsiPeriod bbMultiplier priceType.
  unfold ComprehensiveAnalysis. cbv zeta.
  destruct (fold_left _ _ _) as [bullishCount bearishCount].
  set (sma := if (_ && _)%bool then "strong_bullish" else _).
  assert (Hsma : In sma ["strong_bullish"; "strong_bearish"; "bullish"; "bearish"]).
  { subst sma.
    repeat match goal with
           | |- In (if ?c then _ else _) _ => destruct c
           end; simpl; auto. }
  unfold technical_outcomes.
  repeat match goal with
         | |- context [if ?c then _ else _] =>
             lazymatch c with
             | context [sma] => fail
             | _ => destruct c
             end
         end; (split; [simpl; auto 10 | exact Hsma]).
Qed.

(** X17. UltimateAnalysis fails exactly when
    [AnalyzeVolumeStrategy(dataset, vmaPeriod, 5)] fails, with the same
    error: it succeeds exactly when [0 < vmaPeriod < len(dataset)] and
    [len(dataset) > 10], whatever the periods of the moving average, the
    bands and the oscillator. *)
Theorem UltimateAnalysis_fails_with_volume :
  forall (Format : Time -> string)
         (AnalyzeBollingerStrategy :
            list OHLCV -> Z -> float64 -> PriceType -> result BollingerStrategy)
         (dataset : list OHLCV) (smaPeriod bbPeriod rsiPeriod vmaPeriod : Z)
         (bbMultiplier : float64),
    snd (UltimateAnalysis Format AnalyzeBollingerStrategy dataset
           smaPeriod bbPeriod rsiPeriod vmaPeriod bbMultiplier)
      = snd (AnalyzeVolumeStrategy Format dataset vmaPeriod 5) /\
    (snd (UltimateAnalysis Format AnalyzeBollingerStrategy dataset
            smaPeriod bbPeriod rsiPeriod vmaPeriod bbMultiplier) = None <->
     (0 < vmaPeriod < len dataset /\ 10 < len dataset)%Z).
Proof.
  intros Format ABS dataset smaPeriod bbPeriod rsiPeriod vmaPeriod bbMultiplier.
  assert (Hsame : snd (UltimateAnalysis Format ABS dataset
                         smaPeriod bbPeriod rsiPeriod vmaPeriod bbMultiplier)
                  = snd (AnalyzeVolumeStrategy Format dataset vmaPeriod 5)).
  { unfold UltimateAnalysis, try.
    rewrite ComprehensiveAnalysis_never_fails.
    destruct (snd (AnalyzeVolumeStrategy Format dataset vmaPeriod 5)); [reflexivity|].
    cbv zeta.
    repeat match goal with
           | |- context [if ?c then _ else _] => destruct c
           end; reflexivity. }
  split; [exact Hsame|]. rewrite Hsame.
  pose proof (AnalyzeVolumeStrategy_error Format dataset vmaPeriod 5) as Hiff.
  rewrite Hiff. lia.
Qed.

(** X18. A successful UltimateAnalysis reports a final signal among
    STRONG BUY, BUY, STRONG SELL, SELL, WAIT, HOLD and SUSPICIOUS, a
    confidence among HIGH, MEDIUM and LOW and a rug pull risk among low,
    medium, high and extreme; it reports STRONG BUY, STRONG SELL or the
    confidence HIGH only when the volume confirms the technical signal. *)
Theorem UltimateAnalysis_strong_needs_confirmation :
  forall (Format : Time -> string)
         (AnalyzeBollingerStrategy :
            list OHLCV -> Z -> float64 -> PriceType -> result BollingerStrategy)
         (dataset : list OHLCV) (smaPeriod bbPeriod rsiPeriod vmaPeriod : Z)
         (bbMultiplier : float64) (u : UltimateMemecoinAnalysis),
    UltimateAnalysis Format AnalyzeBollingerStrategy dataset
      smaPeriod bbPeriod rsiPeriod vmaPeriod bbMultiplier = (u, None) ->
    In (FinalSignal u)
       ["STRONG BUY"; "BUY"; "STRONG SELL"; "SELL"; "WAIT"; "HOLD"; "SUSPICIOUS"] /\
    In (Confidence u) ["HIGH"; "MEDIUM"; "LOW"] /\
    In (RugPullRisk u) ["low"; "medium"; "high"; "extreme"] /\
    (FinalSignal u = "STRONG BUY" \/ FinalSignal u = "STRONG SELL" \/ Confidence u = "HIGH" ->
     VolumeConfirm u = true).
Proof.
  intros Format ABS dataset smaPeriod bbPeriod rsiPeriod vmaPeriod bbMultiplier u.
  unfold UltimateAnalysis, try.
  rewrite ComprehensiveAnalysis_never_fails.
  destruct (snd (AnalyzeVolumeStrategy Format dataset vmaPeriod 5)); [discriminate|].
  cbv zeta.
  pose proof (ComprehensiveAnalysis_table Format ABS dataset smaPeriod bbPeriod
                rsiPeriod bbMultiplier ClosePrice) as Htable.
  cbv zeta in Htable.
  set (technical := fst (ComprehensiveAnalysis Format ABS dataset smaPeriod bbPeriod
                           rsiPeriod bbMultiplier ClosePrice)) in *.
  set (volume := fst (AnalyzeVolumeStrategy Format dataset vmaPeriod 5)).
  unfold technical_outcomes in Htable. simpl in Htable.
  destruct Htable as [H|[H|[H|[H|[H|[H|[]]]]]]];
    injection H as Hsignal Hconfidence Hrisk;
    rewrite <- Hsignal, <- Hconfidence, <- ?Hrisk; clear Hsignal Hconfidence Hrisk;
    simpl;
    repeat match goal with
           | |- context [if ?c then _ else _] => destruct c
           end;
    intros [= <-]; simpl;
    (split; [auto 10|]); (split; [auto|]); (split; [auto|]);
    intros [E|[E|E]]; first [reflexivity | discriminate E].
Qed.

(** ** The [[][]string] volatility bands *)

Lemma loop_err_simulation {S T} (R : S -> T -> Prop)
    (body1 : Z -> S -> S + error) (body2 : Z -> T -> T + error) n :
  forall lo s t,
  R s t ->
  (forall i s t, (lo <= i < lo + Z.of_nat n)%Z -> R s t ->
     related_outcomes R (body1 i s) (body2 i t)) ->
  related_outcomes R (loop_err n lo body1 s) (loop_err n lo body2 t).
Proof.
  induction n as [|n IH]; intros lo s t Hst Hbody; simpl; [assumption|].
  pose proof (Hbody lo s t ltac:(lia) Hst) as Hstep.
  destruct (body1 lo s) as [s'|e], (body2 lo t) as [t'|e']; simpl in Hstep;
    try contradiction; [|assumption].
  apply IH; [assumption|]. intros i s0 t0 Hi. apply Hbody. lia.
Qed.

(** X19. For a positive multiplier, the [[][]string] CalculateBollingerBands
    fails exactly when the [[][]string] CalculateSMA fails on the same
    dataset, period and price type, with the same error; otherwise its
    middle bands and timestamps are the values and timestamps of that
    moving average, point by point. *)
Theorem CalculateBollingerBands_middle_is_SMA :
  forall (ParseFloat : string -> option float64) (Sqrt : float64 -> float64)
         (dataset : list (list string)) (period : Z) (multiplier : float64)
         (priceType : PriceType),
    0 < multiplier ->
    snd (Legacy.CalculateBollingerBands ParseFloat Sqrt dataset period multiplier priceType)
      = snd (Legacy.CalculateSMA ParseFloat dataset period priceType) /\
    map MiddleBand
        (fst (Legacy.CalculateBollingerBands ParseFloat Sqrt dataset period multiplier
                priceType))
      = map SMA_Value (fst (Legacy.CalculateSMA ParseFloat dataset period priceType)) /\
    map BB_Timestamp
        (fst (Legacy.CalculateBollingerBands ParseFloat Sqrt dataset period multiplier
                priceType))
      = map SMA_Timestamp (fst (Legacy.CalculateSMA ParseFloat dataset period priceType)).
Proof.
  intros ParseFloat Sqrt dataset period multiplier priceType Hk.
  unfold Legacy.CalculateBollingerBands, Legacy.CalculateSMA.
  destruct (len dataset =? 0)%Z; [repeat split|].
  destruct (period <=? 0)%Z; [repeat split|].
  destruct (period >? len dataset)%Z; [repeat split|].
  destruct (fle multiplier 0) eqn:Efle.
  { apply Qle_bool_iff in Efle. lra. }
  set (R := fun (rs : list BollingerBands) (ms : list SMAResult) =>
              map MiddleBand rs = map SMA_Value ms /\
              map BB_Timestamp rs = map SMA_Timestamp ms).
  match goal with
  | |- context [for_range_err ?lo ?hi ?b1 (@nil BollingerBands)] =>
      match goal with
      | |- context [for_range_err lo hi ?b2 (@nil SMAResult)] =>
          assert (Hsim : related_outcomes R (for_range_err lo hi b1 [])
                           (for_range_err lo hi b2 []));
          [| destruct (for_range_err lo hi b1 []) as [bands|e],
                      (for_range_err lo hi b2 []) as [smas|e'];
             simpl in Hsim; try contradiction;
             [destruct Hsim; repeat split; assumption
             | subst e'; repeat split]]
      end
  end.
  unfold for_range_err at 1 3. apply loop_err_simulation; [split; reflexivity|].
  intros i rs ms Hi [Hm Ht].
  match goal with
  | |- context [for_range_err ?lo ?hi ?b1 (@nil float64, 0)] =>
      match goal with
      | |- context [for_range_err lo hi ?b2 0] =>
          assert (Hinner : related_outcomes
                             (fun (ps : list float64 * float64) (sum : float64) => snd ps = sum)
                             (for_range_err lo hi b1 ([], 0)) (for_range_err lo hi b2 0));
          [| destruct (for_range_err lo hi b1 ([], 0)) as [[prices sum]|e],
                      (for_range_err lo hi b2 0) as [sum'|e'];
             simpl in Hinner; try contradiction;
             [subst sum'; simpl; subst R; cbv beta; rewrite !map_app, Hm, Ht;
              split; reflexivity
             | subst e'; reflexivity]]
      end
  end.
  unfold for_range_err. apply loop_err_simulation; [reflexivity|].
  intros j [ps s] t Hj Hs. simpl in Hs. subst t.
  destruct (Legacy.extractPrice ParseFloat (index [] dataset j) priceType)
    as [price [err|]]; simpl; reflexivity.
Qed.

(** A successful run emits one band per window. *)
Lemma Legacy_bands_count ParseFloat Sqrt dataset period multiplier priceType bands :
  Legacy.CalculateBollingerBands ParseFloat Sqrt dataset period multiplier priceType
  = (bands, None) ->
  (1 <= period <= len dataset)%Z /\ len bands = (len dataset - period + 1)%Z.
Proof.
  unfold Legacy.CalculateBollingerBands.
  destruct (len dataset =? 0)%Z; [discriminate|].
  destruct (Z.leb_spec period 0); [discriminate|].
  destruct (Z.gtb_spec period (len dataset)); [discriminate|].
  destruct (fle multiplier 0); [discriminate|].
  destruct (for_range_err _ _ _ _) as [results|e] eqn:Eloop; [|discriminate].
  intros [= ->]. split; [lia|]. unfold for_range_err in Eloop.
  apply (loop_err_invariant_at
           (fun i (rs : list BollingerBands) => len rs = (i - (period - 1))%Z)) in Eloop.
  - lia.
  - unfold len. simpl. lia.
  - clear Eloop. intros i rs rs' Hi Hlen.
    match goal with
    | |- match ?X with inl _ => _ | inr _ => _ end = _ -> _ =>
        destruct X as [[prices sum]|e]; [|discriminate]
    end.
    intros [= <-]. rewrite len_app, len_single. lia.
Qed.

Lemma Legacy_squeeze_needs_lookback ParseFloat Sqrt dataset period multiplier priceType
    lookback :
  (len dataset - period + 1 < lookback)%Z ->
  snd (Legacy.BollingerSqueeze ParseFloat Sqrt dataset period multiplier priceType lookback)
  <> None.
Proof.
  intros Hshort. unfold Legacy.BollingerSqueeze, try.
  destruct (Legacy.CalculateBollingerBands ParseFloat Sqrt dataset period multiplier priceType)
    as [bands [e|]] eqn:Ebands; simpl; [discriminate|].
  apply Legacy_bands_count in Ebands. destruct Ebands as [_ Hlen].
  destruct (Z.ltb_spec (len bands) lookback); [discriminate | lia].
Qed.

(** X20. The [[][]string] AnalyzeBollingerStrategy fails on every dataset
    of fewer than [period + 9] records: its squeeze test needs 10 bands. *)
Theorem AnalyzeBollingerStrategy_needs_history :
  forall (ParseFloat : string -> option float64) (Sqrt : float64 -> float64)
         (dataset : list (list string)) (period : Z) (multiplier : float64)
         (priceType : PriceType),
    (len dataset < period + 9)%Z ->
    snd (Legacy.AnalyzeBollingerStrategy ParseFloat Sqrt dataset period multiplier priceType)
    <> None.
Proof.
  intros ParseFloat Sqrt dataset period multiplier priceType Hshort.
  pose proof (Legacy_squeeze_needs_lookback ParseFloat Sqrt dataset period multiplier
                priceType 10 ltac:(lia)) as Hsqueeze.
  unfold Legacy.AnalyzeBollingerStrategy, try.
  destruct (snd (Legacy.GetPricePosition _ _ _ _ _ _ _)); [discriminate|].
  destruct (snd (Legacy.BollingerBreakout _ _ _ _ _ _)); [discriminate|].
  destruct (snd (Legacy.BollingerSqueeze _ _ _ _ _ _ _)); [discriminate|].
  contradiction.
Qed.

Lemma Legacy_position_cases ParseFloat Sqrt dataset period multiplier priceType tolerance :
  snd (Legacy.GetPricePosition ParseFloat Sqrt dataset period multiplier priceType tolerance)
    = None ->
  (1 <= period <= len dataset)%Z /\
  In (fst (Legacy.GetPricePosition ParseFloat Sqrt dataset period multiplier priceType
             tolerance))
     [AboveUpperBand; BelowLowerBand; TouchingUpper; TouchingLower; BetweenBands].
Proof.
  unfold Legacy.GetPricePosition, Legacy.GetLatestBollingerBands, try.
  destruct (len dataset =? 0)%Z; [discriminate|].
  destruct (Legacy.CalculateBollingerBands ParseFloat Sqrt dataset period multiplier priceType)
    as [bands [e|]] eqn:Ebands; simpl fst; simpl snd; [discriminate|].
  apply Legacy_bands_count in Ebands. destruct Ebands as [Hperiod _].
  destruct (len bands =? 0)%Z; simpl fst; simpl snd; [discriminate|].
  destruct (snd (Legacy.extractPrice _ _ _)); [discriminate|].
  cbv zeta.
  repeat match goal with
         | |- context [if ?c then _ else _] => destruct c
         end; intros _; (split; [assumption|]); simpl; auto 10.
Qed.

Lemma len_slice_to {A} (s : list A) j :
  (0 <= j <= len s)%Z -> len (slice_to s j) = j.
Proof.
  intros Hj. unfold slice_to, len in *. rewrite length_firstn. lia.
Qed.

(** X21. When the [[][]string] AnalyzeBollingerStrategy succeeds, its
    position is one of the five positions and its breakout is
    bullish_breakout, bearish_breakout or no_breakout, never
    insufficient_data; a bullish breakout comes only with the position
    above_upper and a bearish one only with below_lower; the signal
    strong_buy comes only above the upper band and without a squeeze, and
    strong_sell only below the lower band and without a squeeze. *)
Theorem AnalyzeBollingerStrategy_outcome :
  forall (ParseFloat : string -> option float64) (Sqrt : float64 -> float64)
         (dataset : list (list string)) (period : Z) (multiplier : float64)
         (priceType : PriceType) (s : BollingerStrategy),
    Legacy.AnalyzeBollingerStrategy ParseFloat Sqrt dataset period multiplier priceType
    = (s, None) ->
    In (Position s)
       [AboveUpperBand; BelowLowerBand; TouchingUpper; TouchingLower; BetweenBands] /\
    In (Breakout s) ["bullish_breakout"; "bearish_breakout"; "no_breakout"] /\
    (Breakout s = "bullish_breakout" -> Position s = AboveUpperBand) /\
    (Breakout s = "bearish_breakout" -> Position s = BelowLowerBand) /\
    (BS_Signal s = "strong_buy" -> Position s = AboveUpperBand /\ Squeeze s = false) /\
    (BS_Signal s = "strong_sell" -> Position s = BelowLowerBand /\ Squeeze s = false).
Proof.
  intros ParseFloat Sqrt dataset period multiplier priceType s.
  pose proof (Legacy_squeeze_needs_lookback ParseFloat Sqrt dataset period multiplier
                priceType 10) as Hsqueeze.
  pose proof (Legacy_position_cases ParseFloat Sqrt dataset period multiplier priceType
                (2 # 100)) as Hpos.
  unfold Legacy.AnalyzeBollingerStrategy, Legacy.BollingerBreakout, try in *.
  set (current := Legacy.GetPricePosition ParseFloat Sqrt dataset period multiplier
                    priceType (2 # 100)) in *.
  destruct (snd current) as [e|] eqn:Ecurrent; [discriminate|].
  destruct (Hpos eq_refl) as [Hperiod Hposition]. clear Hpos.
  destruct (Z_lt_dec (len dataset) (period + 9)) as [Hshort|Hlong].
  { specialize (Hsqueeze ltac:(lia)).
    repeat match goal with
           | |- (match ?b with Some _ => _ | None => _ end) = _ -> _ =>
               destruct b; [discriminate|]
           end.
    contradiction. }
  clear Hsqueeze.
  destruct (Z.ltb_spec (len dataset) 2); [lia|].
  rewrite len_slice_to by lia.
  destruct (Z.ltb_spec (len dataset - 1) period); [lia|].
  set (previous := Legacy.GetPricePosition ParseFloat Sqrt
                     (slice_to dataset (len dataset - 1)) period multiplier priceType
                     (2 # 100)) in *.
  destruct (snd previous) as [e|]; [discriminate|].
  set (squeezed := Legacy.BollingerSqueeze ParseFloat Sqrt dataset period multiplier
                     priceType 10).
  set (latest := Legacy.GetLatestBollingerBands ParseFloat Sqrt dataset period multiplier
                   priceType).
  simpl in Hposition.
  destruct Hposition as [Hp|[Hp|[Hp|[Hp|[Hp|[]]]]]]; rewrite <- Hp; clear Hp;
    unfold AboveUpperBand, BelowLowerBand, TouchingUpper, TouchingLower, BetweenBands;
    destruct (fst previous =s "between_bands");
    destruct (fst previous =s "touching_upper");
    destruct (fst previous =s "touching_lower");
    simpl;
    destruct (snd squeezed); try discriminate;
    destruct (snd latest); try discriminate;
    destruct (fst squeezed);
    simpl; intros [= <-]; simpl;
    repeat split; auto 10; try discriminate.
Qed.

(** ** Conversion of string records *)


(** ** The two variants of the moving average chain *)

Lemma CalculateSMA_parsed ParseFloat Format stringData ohlcv period priceType :
  len ohlcv = len stringData ->
  (forall j, (0 <= j < len stringData)%Z ->
     parses_to ParseFloat (index [] stringData j) (index OHLCV_zero ohlcv j)) ->
  snd (Legacy.CalculateSMA ParseFloat stringData period priceType)
    = snd (CalculateSMA Format ohlcv period priceType) /\
  map SMA_Value (fst (Legacy.CalculateSMA ParseFloat stringData period priceType))
    = map SMA_Value (fst (CalculateSMA Format ohlcv period priceType)).
Proof.
  intros Hlen Hparses.
  unfold Legacy.CalculateSMA, CalculateSMA. rewrite Hlen.
  destruct (len stringData =? 0)%Z; [split; reflexivity|].
  destruct (Z.leb_spec period 0); [split; reflexivity|].
  destruct (Z.gtb_spec period (len stringData)); [split; reflexivity|].
  set (value_at := fun i : Z =>
    for_range (i - period + 1) (i + 1)
      (fun j sum => sum + ExtractPrice (index OHLCV_zero ohlcv j) priceType) 0
    / float64_of_int period).
  set (stamps := zseq (period - 1) (Z.to_nat (len stringData - (period - 1)))).
  set (old_results := for_range_err (period - 1) _ _ _).
  set (new_results := for_range (period - 1) _ _ _).
  assert (Hold : old_results =
            inl (map (fun i => mkSMAResult (index "" (index [] stringData i) 0) (value_at i))
                   stamps)).
  { subst old_results. unfold for_range_err at 1.
    rewrite (loop_err_total _
               (fun i results =>
                  results ++ [mkSMAResult (index "" (index [] stringData i) 0) (value_at i)])).
    - now rewrite (loop_append
                     (fun i => mkSMAResult (index "" (index [] stringData i) 0) (value_at i)))
        by (intros; reflexivity).
    - intros i results Hi. unfold for_range_err.
      rewrite (loop_err_total _
                 (fun j sum => sum + ExtractPrice (index OHLCV_zero ohlcv j) priceType)).
      + reflexivity.
      + intros j sum Hj.
        rewrite (extractPrice_parses_to ParseFloat _ (index OHLCV_zero ohlcv j))
          by (apply Hparses; lia).
        reflexivity. }
  assert (Hnew : new_results =
            map (fun i => mkSMAResult (Format (Timestamp (index OHLCV_zero ohlcv i)))
                            (value_at i)) stamps).
  { subst new_results. unfold for_range at 1.
    now rewrite (loop_append
                   (fun i => mkSMAResult (Format (Timestamp (index OHLCV_zero ohlcv i)))
                               (value_at i)))
      by (intros; reflexivity). }
  rewrite Hold, Hnew. split; [reflexivity|].
  simpl fst. rewrite !map_map. reflexivity.
Qed.

Lemma len_map {A B} (f : A -> B) (s : list A) : len (map f s) = len s.
Proof. unfold len. now rewrite length_map. Qed.

Lemma SMA_Value_index (s : list SMAResult) i :
  SMA_Value (index SMAResult_zero s i) = index 0 (map SMA_Value s) i.
Proof.
  unfold index. destruct (i <? 0)%Z; [reflexivity|].
  change 0 with (SMA_Value SMAResult_zero). now rewrite map_nth.
Qed.

(** What the callers of CalculateSMA read off its results: their number
    and their values. *)
Lemma same_values_same_reads (old new : list SMAResult) :
  map SMA_Value old = map SMA_Value new ->
  len old = len new /\
  forall i, SMA_Value (index SMAResult_zero old i) = SMA_Value (index SMAResult_zero new i).
Proof.
  intros H. split.
  - rewrite <- (len_map SMA_Value old), <- (len_map SMA_Value new). now rewrite H.
  - intros i. now rewrite !SMA_Value_index, H.
Qed.

(** X23. On a dataset of strings that ConvertStringDataToOHLCV converts,
    the [[][]string] GetLatestSMA, IsPriceAboveSMA and SMACrossover return
    what the [[]OHLCV] GetLatestSMA, IsPriceAboveSMA and SMACrossover return
    on the converted dataset, value and error alike. *)
Theorem moving_average_chain_variants_agree :
  forall (ParseFloat : string -> option float64) (ParseRFC3339 : string -> option Time)
         (Format : Time -> string)
         (stringData : list (list string)) (ohlcv : list OHLCV),
    ConvertStringDataToOHLCV ParseFloat ParseRFC3339 stringData = (ohlcv, None) ->
    forall (period fastPeriod slowPeriod : Z) (priceType : PriceType),
      Legacy.GetLatestSMA ParseFloat stringData period priceType
        = GetLatestSMA Format ohlcv period priceType /\
      Legacy.IsPriceAboveSMA ParseFloat stringData period priceType
        = IsPriceAboveSMA Format ohlcv period priceType /\
      Legacy.SMACrossover ParseFloat stringData fastPeriod slowPeriod priceType
        = SMACrossover Format ohlcv fastPeriod slowPeriod priceType.
Proof.
  intros ParseFloat ParseRFC3339 Format stringData ohlcv Hconv
         period fastPeriod slowPeriod priceType.
  apply ConvertStringDataToOHLCV_parses in Hconv. destruct Hconv as [Hlen Hparses].
  assert (Hlatest : Legacy.GetLatestSMA ParseFloat stringData period priceType
                    = GetLatestSMA Format ohlcv period priceType).
  { destruct (CalculateSMA_parsed ParseFloat Format stringData ohlcv period priceType
                Hlen Hparses) as [Herr Hvalues].
    apply same_values_same_reads in Hvalues. destruct Hvalues as [Hcount Hread].
    unfold Legacy.GetLatestSMA, GetLatestSMA, try.
    rewrite Herr, Hcount, Hread. reflexivity. }
  split; [exact Hlatest|]. split.
  - unfold Legacy.IsPriceAboveSMA, IsPriceAboveSMA, try. rewrite Hlatest, Hlen.
    destruct (Z.eqb_spec (len stringData) 0); [reflexivity|].
    destruct (snd (GetLatestSMA Format ohlcv period priceType)); [reflexivity|].
    rewrite (extractPrice_parses_to ParseFloat _
               (index OHLCV_zero ohlcv (len stringData - 1)))
      by (apply Hparses; pose proof (len_nonneg stringData); lia).
    reflexivity.
  - destruct (CalculateSMA_parsed ParseFloat Format stringData ohlcv fastPeriod priceType
                Hlen Hparses) as [Hferr Hfvalues].
    destruct (CalculateSMA_parsed ParseFloat Format stringData ohlcv slowPeriod priceType
                Hlen Hparses) as [Hserr Hsvalues].
    apply same_values_same_reads in Hfvalues. destruct Hfvalues as [Hfcount Hfread].
    apply same_values_same_reads in Hsvalues. destruct Hsvalues as [Hscount Hsread].
    unfold Legacy.SMACrossover, SMACrossover, try.
    rewrite Hlen, Hferr, Hserr, Hfcount, Hscount, !Hfread, !Hsread. reflexivity.
Qed.

(** ** The further properties on the sample series *)

(** Closed comparisons and equations of sample values, by evaluation. *)
Ltac evaluate := vm_compute; repeat split; first [reflexivity | discriminate].


Lemma rising_series_never_falls : never_falls rising_series ClosePrice.
Proof.
  intros k Hk. change (len rising_series) with 6%Z in Hk.
  assert (Hcases : (k = 0 \/ k = 1 \/ k = 2 \/ k = 3 \/ k = 4)%Z) by lia.
  decompose [or] Hcases; subst k; evaluate.
Qed.





Lemma SMACrossover_succeeds_iff_witness :
  In (fst (SMACrossover decimal_stamp rising_series 2 3 ClosePrice))
     ["bullish_crossover"; "bearish_crossover"; "no_signal"].
Proof.
  apply (proj2 (SMACrossover_succeeds_iff decimal_stamp rising_series 2 3 ClosePrice)).
  evaluate.
Defined.

Lemma CalculateRSI_succeeds_iff_witness :
  len (fst (CalculateRSI decimal_stamp rising_series 3 ClosePrice))
  = (len rising_series - 3)%Z.
Proof.
  apply (proj2 (proj2 (CalculateRSI_succeeds_iff decimal_stamp rising_series 3 ClosePrice))).
  evaluate.
Defined.

Lemma CalculateRSI_alignment_witness :
  exists r,
    nth_error (fst (CalculateRSI decimal_stamp rising_series 3 ClosePrice)) (Z.to_nat 1)
      = Some r /\
    RSI_Timestamp r = decimal_stamp (Timestamp (index OHLCV_zero rising_series (3 + 1))) /\
    RSI_Signal r = getRSISignal (RSI_Value r).
Proof.
  apply (CalculateRSI_alignment decimal_stamp rising_series 3 ClosePrice); evaluate.
Defined.

Lemma CalculateRSI_never_falling_witness :
  Forall (fun r => RSI_Value r == 10000 # 101 /\ RSI_Signal r = "extreme_overbought")
    (fst (CalculateRSI decimal_stamp rising_series 3 ClosePrice)).
Proof.
  apply Forall_forall.
  exact (CalculateRSI_never_falling decimal_stamp rising_series 3 ClosePrice
           rising_series_never_falls).
Defined.


Lemma DetectRSIDivergence_outcome_witness :
  In (RD_Type (fst (DetectRSIDivergence decimal_stamp rising_series 3 ClosePrice 2)))
     ["none"; "bearish"; "bullish"] /\
  0 <= RD_Confidence (fst (DetectRSIDivergence decimal_stamp rising_series 3 ClosePrice 2))
    <= 1 /\
  (RD_Type (fst (DetectRSIDivergence decimal_stamp rising_series 3 ClosePrice 2)) = "none" ->
   RD_Confidence (fst (DetectRSIDivergence decimal_stamp rising_series 3 ClosePrice 2)) == 0).
Proof.
  apply (proj2 (DetectRSIDivergence_outcome decimal_stamp rising_series 3 ClosePrice 2)).
  evaluate.
Defined.

Lemma AnalyzeRSIStrategy_outcome_witness :
  In (Condition (fst (AnalyzeRSIStrategy decimal_stamp rising_series 3 ClosePrice)),
      RSI_Signal (RS_Current (fst (AnalyzeRSIStrategy decimal_stamp rising_series 3 ClosePrice))))
     condition_labels /\
  In (RS_Signal (fst (AnalyzeRSIStrategy decimal_stamp rising_series 3 ClosePrice)))
     ["strong_buy"; "strong_sell"; "buy"; "sell"; "bullish"; "bearish"; "hold"] /\
  In (Momentum (fst (AnalyzeRSIStrategy decimal_stamp rising_series 3 ClosePrice)))
     ["strengthening"; "weakening"; "neutral"].
Proof.
  apply (proj2 (AnalyzeRSIStrategy_outcome decimal_stamp rising_series 3 ClosePrice)).
  evaluate.
Defined.




Lemma AnalyzeVolumeStrategy_succeeds_iff_witness :
  In (VSt_Signal (fst (AnalyzeVolumeStrategy decimal_stamp thin_series 5 5)))
     ["strong_buy"; "strong_sell"; "buy"; "sell"; "accumulate"; "distribute";
      "low_volume_alert"; "hold"].
Proof.
  apply (proj2 (AnalyzeVolumeStrategy_succeeds_iff decimal_stamp thin_series 5 5)).
  evaluate.
Defined.

Lemma DetectVolumeBreakout_grades_witness :
  In (VS_Type (fst (DetectVolumeBreakout decimal_stamp surge_series 5 2)),
      VS_Strength (fst (DetectVolumeBreakout decimal_stamp surge_series 5 2)),
      VS_Confidence (fst (DetectVolumeBreakout decimal_stamp surge_series 5 2)))
     breakout_grades /\
  In (VS_Trend (fst (DetectVolumeBreakout decimal_stamp surge_series 5 2)))
     ["bullish"; "bearish"; "neutral"].
Proof.
  apply (DetectVolumeBreakout_grades decimal_stamp surge_series 5 2); evaluate.
Defined.

Lemma UltimateAnalysis_strong_needs_confirmation_witness :
  In (FinalSignal
        (fst (UltimateAnalysis decimal_stamp sample_bands_engine spike_series 5 5 5 5 2)))
     ["STRONG BUY"; "BUY"; "STRONG SELL"; "SELL"; "WAIT"; "HOLD"; "SUSPICIOUS"] /\
  In (Confidence
        (fst (UltimateAnalysis decimal_stamp sample_bands_engine spike_series 5 5 5 5 2)))
     ["HIGH"; "MEDIUM"; "LOW"] /\
  In (RugPullRisk
        (fst (UltimateAnalysis decimal_stamp sample_bands_engine spike_series 5 5 5 5 2)))
     ["low"; "medium"; "high"; "extreme"] /\
  (FinalSignal
     (fst (UltimateAnalysis decimal_stamp sample_bands_engine spike_series 5 5 5 5 2))
   = "STRONG BUY" \/
   FinalSignal
     (fst (UltimateAnalysis decimal_stamp sample_bands_engine spike_series 5 5 5 5 2))
   = "STRONG SELL" \/
   Confidence
     (fst (UltimateAnalysis decimal_stamp sample_bands_engine spike_series 5 5 5 5 2))
   = "HIGH" ->
   VolumeConfirm
     (fst (UltimateAnalysis decimal_stamp sample_bands_engine spike_series 5 5 5 5 2))
   = true).
Proof.
  apply (UltimateAnalysis_strong_needs_confirmation decimal_stamp sample_bands_engine
           spike_series 5 5 5 5 2).
  evaluate.
Defined.

Lemma CalculateBollingerBands_middle_is_SMA_witness :
  snd (Legacy.CalculateBollingerBands parse_decimal rational_sqrt string_series 3 2 ClosePrice)
    = snd (Legacy.CalculateSMA parse_decimal string_series 3 ClosePrice) /\
  map MiddleBand
      (fst (Legacy.CalculateBollingerBands parse_decimal rational_sqrt string_series 3 2
              ClosePrice))
    = map SMA_Value (fst (Legacy.CalculateSMA parse_decimal string_series 3 ClosePrice)) /\
  map BB_Timestamp
      (fst (Legacy.CalculateBollingerBands parse_decimal rational_sqrt string_series 3 2
              ClosePrice))
    = map SMA_Timestamp (fst (Legacy.CalculateSMA parse_decimal string_series 3 ClosePrice)).
Proof.
  apply (CalculateBollingerBands_middle_is_SMA parse_decimal rational_sqrt string_series 3 2
           ClosePrice).
  evaluate.
Defined.

Lemma AnalyzeBollingerStrategy_needs_history_witness :
  snd (Legacy.AnalyzeBollingerStrategy parse_decimal rational_sqrt string_series 3 2 ClosePrice)
  <> None.
Proof.
  apply (AnalyzeBollingerStrategy_needs_history parse_decimal rational_sqrt string_series 3 2
           ClosePrice).
  evaluate.
Defined.

Lemma AnalyzeBollingerStrategy_outcome_witness :
  In (Position long_string_strategy)
     [AboveUpperBand; BelowLowerBand; TouchingUpper; TouchingLower; BetweenBands] /\
  In (Breakout long_string_strategy)
     ["bullish_breakout"; "bearish_breakout"; "no_breakout"] /\
  (Breakout long_string_strategy = "bullish_breakout" ->
   Position long_string_strategy = AboveUpperBand) /\
  (Breakout long_string_strategy = "bearish_breakout" ->
   Position long_string_strategy = BelowLowerBand) /\
  (BS_Signal long_string_strategy = "strong_buy" ->
   Position long_string_strategy = AboveUpperBand /\ Squeeze long_string_strategy = false) /\
  (BS_Signal long_string_strategy = "strong_sell" ->
   Position long_string_strategy = BelowLowerBand /\ Squeeze long_string_strategy = false).
Proof.
  apply (AnalyzeBollingerStrategy_outcome parse_decimal rational_sqrt
           long_string_series 3 1 ClosePrice long_string_strategy).
  evaluate.
Defined.


Lemma moving_average_chain_variants_agree_witness :
  Legacy.GetLatestSMA parse_decimal string_series 3 ClosePrice
    = GetLatestSMA decimal_stamp string_series_ohlcv 3 ClosePrice /\
  Legacy.IsPriceAboveSMA parse_decimal string_series 3 ClosePrice
    = IsPriceAboveSMA decimal_stamp string_series_ohlcv 3 ClosePrice /\
  Legacy.SMACrossover parse_decimal string_series 2 3 ClosePrice
    = SMACrossover decimal_stamp string_series_ohlcv 2 3 ClosePrice.
Proof.
  apply (moving_average_chain_variants_agree parse_decimal no_rfc3339 decimal_stamp
           string_series string_series_ohlcv ltac:(evaluate) 3 2 3 ClosePrice).
Defined.
